(** * Task-management API: authentication, authorisation and task CRUD

    A shallow embedding of the two Express routers of the backend
    ([routes/taskRoutes.js] and [routes/authRoutes.js]) together with the
    part of MySQL, express-validator, bcrypt and jsonwebtoken they rely on.

    Conventions of the model.
    - A handler is a function of the database state; it returns the new
      state and the HTTP response it sent.  An early
      [return res.status(..).json(..)] is the left injection of the
      handler monad below.
    - Request bodies carry, for each field, a JSON string, [null] or
      nothing ([undefined]); strings are character lists.
    - The [auth] middleware has already verified the bearer token: the task
      handlers receive the decoded payload [req.user].
    - Row ids, the [:id] path parameter and timestamps are integers.
    - Randomness and time enter as explicit arguments (the bcrypt salt, the
      clock of the database server).
    - Database statements succeed; the catch-all [500 Server error] branch
      of the handlers is therefore not part of the model. *)

From Stdlib Require Import ZArith List String Bool Lia.
From Stdlib Require Import Sorting.Sorted Sorting.Permutation.
Import ListNotations.
Open Scope string_scope.
Open Scope Z_scope.
Open Scope list_scope.

(** ** JavaScript values found in a parsed request body *)

Module Js.

Inductive value : Type :=
| Undefined
| Null
| Str (s : string).

(** [if (v)]: the empty string, [null] and [undefined] are falsy. *)
Definition truthy (v : value) : bool :=
  match v with
  | Str s => negb (s =? "")%string
  | _ => false
  end.

(** [v !== undefined] *)
Definition defined (v : value) : bool :=
  match v with
  | Undefined => false
  | _ => true
  end.

(** [const { f = d } = req.body]: the default applies to [undefined] only. *)
Definition default (d : string) (v : value) : value :=
  match v with
  | Undefined => Str d
  | _ => v
  end.

End Js.

(** ** express-validator chains used by the routes *)

Module Validator.

Record FieldError : Type := { path : string; msg : string }.

(** The library validates the string form of a field: [null] and
    [undefined] become the empty string. *)
Definition toString (v : Js.value) : string :=
  match v with
  | Js.Str s => s
  | _ => ""
  end.

Definition notEmpty (v : Js.value) : bool :=
  negb (Nat.eqb (String.length (toString v)) 0).

Definition isIn (allowed : list string) (v : Js.value) : bool :=
  existsb (String.eqb (toString v)) allowed.

Definition isLength_min (min : nat) (v : Js.value) : bool :=
  Nat.leb min (String.length (toString v)).

(** [validator.isEmail] rejects the empty string; the rest of its syntax
    check is the parameter [syntax]. *)
Definition isEmail (syntax : string -> bool) (v : Js.value) : bool :=
  negb (toString v =? "")%string && syntax (toString v).

(** [.optional()]: the chain is skipped when the field is [undefined]. *)
Definition optional (check : Js.value -> bool) (v : Js.value) : bool :=
  match v with
  | Js.Undefined => true
  | _ => check v
  end.

(** One chain [body(path).<check>.withMessage(msg)]. *)
Definition body (path : string) (check : Js.value -> bool) (msg : string)
    (v : Js.value) : list FieldError :=
  if check v then [] else [ {| path := path; msg := msg |} ].

(** Message of a chain without [withMessage]. *)
Definition invalid_value : string := "Invalid value".

End Validator.

(** ** Tables *)

Module Users.

Record row : Type := {
  id : Z;
  username : string;
  email : string;
  password : string;
  role : string;
  created_at : Z
}.

(** Modelled from the spec: the schema file is not among the sources; the
    [role] column, which the registration INSERT does not set, defaults to
    [user] (the spec persists a new user with role [user], and the schema
    documented in the router gives [default: user]). *)
Definition role_default : string := "user".

End Users.

Module Tasks.

Record row : Type := {
  id : Z;
  title : string;
  description : option string;
  status : string;
  user_id : Z;
  created_at : Z;
  updated_at : Z
}.

(** A column assignment of [UPDATE tasks SET ...], with its bound value. *)
Inductive assignment : Type :=
| SetTitle (v : string)
| SetDescription (v : option string)
| SetStatus (v : string).

Definition assign (r : row) (a : assignment) : row :=
  match a with
  | SetTitle v =>
      {| id := id r; title := v; description := description r;
         status := status r; user_id := user_id r;
         created_at := created_at r; updated_at := updated_at r |}
  | SetDescription v =>
      {| id := id r; title := title r; description := v;
         status := status r; user_id := user_id r;
         created_at := created_at r; updated_at := updated_at r |}
  | SetStatus v =>
      {| id := id r; title := title r; description := description r;
         status := v; user_id := user_id r;
         created_at := created_at r; updated_at := updated_at r |}
  end.

(** The routes never write [updated_at]: the column is left to the
    database, whose schema is not among the sources.  The model stamps it
    with the time of the UPDATE; nothing below is stated about its value
    after an update. *)
Definition touch (now : Z) (r : row) : row :=
  {| id := id r; title := title r; description := description r;
     status := status r; user_id := user_id r;
     created_at := created_at r; updated_at := now |}.

(** A row of [SELECT t.*, u.username FROM tasks t JOIN users u ...]. *)
Record joined : Type := { task : row; username : string }.

End Tasks.

(** ** The database *)

Module Db.

Record Store : Type := {
  users : list Users.row;
  tasks : list Tasks.row;
  users_auto_increment : Z;
  tasks_auto_increment : Z
}.

Definition empty : Store :=
  {| users := []; tasks := [];
     users_auto_increment := 1; tasks_auto_increment := 1 |}.

(** A bound parameter: [null] and [undefined] are sent as NULL. *)
Definition param (v : Js.value) : option string :=
  match v with
  | Js.Str s => Some s
  | _ => None
  end.

(** [FROM tasks t JOIN users u ON t.user_id = u.id] *)
Definition tasks_join_users (st : Store) : list Tasks.joined :=
  flat_map
    (fun t =>
       map (fun u => {| Tasks.task := t; Tasks.username := Users.username u |})
           (filter (fun u => Tasks.user_id t =? Users.id u) (users st)))
    (tasks st).

(** [ORDER BY t.created_at DESC], as a stable insertion sort. *)
Fixpoint insert_desc (r : Tasks.joined) (l : list Tasks.joined)
    : list Tasks.joined :=
  match l with
  | [] => [r]
  | r' :: l' =>
      if Tasks.created_at (Tasks.task r') <=? Tasks.created_at (Tasks.task r)
      then r :: l
      else r' :: insert_desc r l'
  end.

Fixpoint order_by_created_at_desc (l : list Tasks.joined)
    : list Tasks.joined :=
  match l with
  | [] => []
  | r :: l' => insert_desc r (order_by_created_at_desc l')
  end.

(** [SELECT t.*, u.username FROM tasks t JOIN users u ON t.user_id = u.id
     ORDER BY t.created_at DESC] *)
Definition select_all_joined (st : Store) : list Tasks.joined :=
  order_by_created_at_desc (tasks_join_users st).

(** [... WHERE t.user_id = ? ORDER BY t.created_at DESC] *)
Definition select_joined_by_user (uid : Z) (st : Store)
    : list Tasks.joined :=
  order_by_created_at_desc
    (filter (fun r => Tasks.user_id (Tasks.task r) =? uid)
            (tasks_join_users st)).

(** [... WHERE t.id = ?] *)
Definition select_joined_by_id (tid : Z) (st : Store) : list Tasks.joined :=
  filter (fun r => Tasks.id (Tasks.task r) =? tid) (tasks_join_users st).

(** [SELECT * FROM tasks WHERE id = ?] *)
Definition select_task (tid : Z) (st : Store) : list Tasks.row :=
  filter (fun t => Tasks.id t =? tid) (tasks st).

(** [INSERT INTO tasks (title, description, status, user_id) VALUES (?,?,?,?)].
    The columns the statement does not set take the defaults of the schema
    (ids are server-generated from the table's counter, both timestamps are
    the current time).  The result is the new state and [result.insertId]. *)
Definition insert_task (title : string) (description : option string)
    (status : string) (user_id : Z) (now : Z) (st : Store) : Store * Z :=
  let tid := tasks_auto_increment st in
  ({| users := users st;
      tasks := tasks st ++
        [ {| Tasks.id := tid; Tasks.title := title;
             Tasks.description := description; Tasks.status := status;
             Tasks.user_id := user_id;
             Tasks.created_at := now; Tasks.updated_at := now |} ];
      users_auto_increment := users_auto_increment st;
      tasks_auto_increment := tid + 1 |}, tid).

(** [UPDATE tasks SET <assignments> WHERE id = ?] *)
Definition update_task (sets : list Tasks.assignment) (tid : Z) (now : Z)
    (st : Store) : Store :=
  {| users := users st;
     tasks := map (fun t => if Tasks.id t =? tid
                            then Tasks.touch now (fold_left Tasks.assign sets t)
                            else t) (tasks st);
     users_auto_increment := users_auto_increment st;
     tasks_auto_increment := tasks_auto_increment st |}.

(** [DELETE FROM tasks WHERE id = ?] *)
Definition delete_task (tid : Z) (st : Store) : Store :=
  {| users := users st;
     tasks := filter (fun t => negb (Tasks.id t =? tid)) (tasks st);
     users_auto_increment := users_auto_increment st;
     tasks_auto_increment := tasks_auto_increment st |}.

Section Collation.

(** String comparison of the [users] columns under the table's collation. *)
Variable collate : string -> string -> bool.

(** [SELECT * FROM users WHERE email = ? OR username = ?] *)
Definition select_user_by_email_or_username (email username : string)
    (st : Store) : list Users.row :=
  filter (fun u => collate (Users.email u) email
                   || collate (Users.username u) username) (users st).

(** [SELECT * FROM users WHERE email = ?] *)
Definition select_user_by_email (email : string) (st : Store)
    : list Users.row :=
  filter (fun u => collate (Users.email u) email) (users st).

End Collation.

(** [INSERT INTO users (username, email, password) VALUES (?, ?, ?)] *)
Definition insert_user (username email password : string) (now : Z)
    (st : Store) : Store * Z :=
  let uid := users_auto_increment st in
  ({| users := users st ++
        [ {| Users.id := uid; Users.username := username;
             Users.email := email; Users.password := password;
             Users.role := Users.role_default; Users.created_at := now |} ];
      tasks := tasks st;
      users_auto_increment := uid + 1;
      tasks_auto_increment := tasks_auto_increment st |}, uid).

End Db.

(** ** jsonwebtoken *)

Module Jwt.

(** The payload the routes sign, and [req.user] after verification. *)
Record Claims : Type := { id : Z; username : string; role : string }.

Record Token : Type := {
  payload : Claims;
  secret : string;
  expiresIn : string
}.

(** [jwt.sign(payload, secret, { expiresIn })] *)
Definition sign (p : Claims) (key : string) (ttl : string) : Token :=
  {| payload := p; secret := key; expiresIn := ttl |}.

End Jwt.

(** ** HTTP responses *)

Module Http.

(** The [user] object of the authentication responses. *)
Record PublicUser : Type := {
  id : Z;
  username : string;
  email : string;
  role : string
}.

Inductive Body : Type :=
| Message (message : string)
| Errors (errors : list Validator.FieldError)
| TaskList (rows : list Tasks.joined)
| TaskJson (row : Tasks.joined)
| TaskResult (message : string) (task : option Tasks.row)
| AuthResult (message : string) (token : Jwt.Token) (user : PublicUser).

Record Response : Type := { status : Z; body : Body }.

(** [res.status(code).json(b)] and [res.json(b)] *)
Definition json (code : Z) (b : Body) : Response :=
  {| status := code; body := b |}.

End Http.

(** ** Handlers: database state passing with early return *)

Module Handler.

Definition t (A : Type) : Type :=
  Db.Store -> Db.Store * (Http.Response + A).

Definition ret {A : Type} (a : A) : t A := fun st => (st, inr a).

Definition bind {A B : Type} (m : t A) (k : A -> t B) : t B :=
  fun st =>
    match m st with
    | (st', inl r) => (st', inl r)
    | (st', inr a) => k a st'
    end.

(** [return res.status(..).json(..)] *)
Definition send {A : Type} (r : Http.Response) : t A :=
  fun st => (st, inl r).

(** [await db.query('SELECT ...')] *)
Definition query {A : Type} (q : Db.Store -> A) : t A :=
  fun st => (st, inr (q st)).

(** [await db.query('INSERT ...')] with its result *)
Definition insert {A : Type} (q : Db.Store -> Db.Store * A) : t A :=
  fun st => let (st', a) := q st in (st', inr a).

(** [await db.query('UPDATE ...')], [await db.query('DELETE ...')] *)
Definition exec (q : Db.Store -> Db.Store) : t unit :=
  fun st => (q st, inr tt).

(** [if (c) { return res... }] *)
Definition when (c : bool) (r : Http.Response) : t unit :=
  if c then send r else ret tt.

(** A route handler always ends by sending a response. *)
Definition route : Type := t Empty_set.

Definition run (h : route) (st : Db.Store) : Db.Store * Http.Response :=
  match h st with
  | (st', inl r) => (st', r)
  | (_, inr e) => match e with end
  end.

End Handler.

Notation "x <- m ;; k" := (Handler.bind m (fun x => k))
  (at level 61, m at next level, right associativity).
Notation "m ;; k" := (Handler.bind m (fun _ => k))
  (at level 61, right associativity).

(** ** routes/taskRoutes.js *)

Module TaskRoutes.

Record Body : Type := {
  title : Js.value;
  description : Js.value;
  status : Js.value
}.

Definition statuses : list string := ["pending"; "in-progress"; "completed"].

(** [req.user.role !== 'admin' && task.user_id !== req.user.id] *)
Definition denied (user : Jwt.Claims) (task : Tasks.row) : bool :=
  negb (Jwt.role user =? "admin")%string
  && negb (Tasks.user_id task =? Jwt.id user).

(** [router.get('/', auth, ...)] *)
Definition get_all (user : Jwt.Claims) : Handler.route :=
  tasks <- Handler.query
             (if negb (Jwt.role user =? "admin")%string
              then Db.select_joined_by_user (Jwt.id user)
              else Db.select_all_joined) ;;
  Handler.send (Http.json 200 (Http.TaskList tasks)).

(** [router.get('/:id', auth, ...)] *)
Definition get_one (user : Jwt.Claims) (id : Z) : Handler.route :=
  tasks <- Handler.query (Db.select_joined_by_id id) ;;
  match tasks with
  | [] => Handler.send (Http.json 404 (Http.Message "Task not found"))
  | task :: _ =>
      Handler.when (denied user (Tasks.task task))
        (Http.json 403 (Http.Message "Access denied")) ;;
      Handler.send (Http.json 200 (Http.TaskJson task))
  end.

(** Validation chains of [router.post('/', ...)] *)
Definition post_errors (b : Body) : list Validator.FieldError :=
  Validator.body "title" Validator.notEmpty "Title is required" (title b)
  ++ Validator.body "status"
       (Validator.optional (Validator.isIn statuses))
       Validator.invalid_value (status b).

(** [router.post('/', [auth, ...], ...)].  Past the validation chains the
    title is a non-empty string and the status, if any, one of [statuses]. *)
Definition post (user : Jwt.Claims) (b : Body) (now : Z) : Handler.route :=
  let errors := post_errors b in
  Handler.when (negb (Nat.eqb (List.length errors) 0))
    (Http.json 400 (Http.Errors errors)) ;;
  let status := Js.default "pending" (status b) in
  insertId <- Handler.insert
                (Db.insert_task (Validator.toString (title b))
                   (Db.param (description b))
                   (Validator.toString status) (Jwt.id user) now) ;;
  newTask <- Handler.query (Db.select_task insertId) ;;
  Handler.send
    (Http.json 201
       (Http.TaskResult "Task created successfully" (hd_error newTask))).

(** Validation chains of [router.put('/:id', ...)] *)
Definition put_errors (b : Body) : list Validator.FieldError :=
  Validator.body "title" (Validator.optional Validator.notEmpty)
    Validator.invalid_value (title b)
  ++ Validator.body "status"
       (Validator.optional (Validator.isIn statuses))
       Validator.invalid_value (status b).

(** The [updates]/[values] arrays built from the request body. *)
Definition put_updates (b : Body) : list Tasks.assignment :=
  (if Js.truthy (title b)
   then [Tasks.SetTitle (Validator.toString (title b))] else [])
  ++ (if Js.defined (description b)
      then [Tasks.SetDescription (Db.param (description b))] else [])
  ++ (if Js.truthy (status b)
      then [Tasks.SetStatus (Validator.toString (status b))] else []).

(** [router.put('/:id', [auth, ...], ...)] *)
Definition put (user : Jwt.Claims) (id : Z) (b : Body) (now : Z)
    : Handler.route :=
  let errors := put_errors b in
  Handler.when (negb (Nat.eqb (List.length errors) 0))
    (Http.json 400 (Http.Errors errors)) ;;
  tasks <- Handler.query (Db.select_task id) ;;
  match tasks with
  | [] => Handler.send (Http.json 404 (Http.Message "Task not found"))
  | task :: _ =>
      Handler.when (denied user task)
        (Http.json 403 (Http.Message "Access denied")) ;;
      let updates := put_updates b in
      Handler.when (Nat.eqb (List.length updates) 0)
        (Http.json 400 (Http.Message "No fields to update")) ;;
      Handler.exec (Db.update_task updates id now) ;;
      updatedTask <- Handler.query (Db.select_task id) ;;
      Handler.send
        (Http.json 200
           (Http.TaskResult "Task updated successfully"
              (hd_error updatedTask)))
  end.

(** [router.delete('/:id', auth, ...)] *)
Definition delete (user : Jwt.Claims) (id : Z) : Handler.route :=
  tasks <- Handler.query (Db.select_task id) ;;
  match tasks with
  | [] => Handler.send (Http.json 404 (Http.Message "Task not found"))
  | task :: _ =>
      Handler.when (denied user task)
        (Http.json 403 (Http.Message "Access denied")) ;;
      Handler.exec (Db.delete_task id) ;;
      Handler.send (Http.json 200 (Http.Message "Task deleted successfully"))
  end.

End TaskRoutes.

(** ** routes/authRoutes.js *)

Module AuthRoutes.

(** Libraries and process-wide configuration the router closes over. *)
Record Env : Type := {
  email_syntax : string -> bool;            (* validator.isEmail *)
  bcrypt_hash : string -> string -> string; (* bcrypt.hash(password, salt) *)
  bcrypt_compare : string -> string -> bool;(* bcrypt.compare(password, hash) *)
  JWT_SECRET : string;                      (* process.env.JWT_SECRET *)
  collate : string -> string -> bool        (* [=] on the users columns *)
}.

Record RegisterBody : Type := {
  username : Js.value;
  email : Js.value;
  password : Js.value
}.

(** Validation chains of [router.post('/register', ...)] *)
Definition register_errors (env : Env) (b : RegisterBody)
    : list Validator.FieldError :=
  Validator.body "username" Validator.notEmpty "Username is required"
    (username b)
  ++ Validator.body "email" (Validator.isEmail (email_syntax env))
       "Valid email is required" (email b)
  ++ Validator.body "password" (Validator.isLength_min 6)
       "Password must be at least 6 characters" (password b).

(** [router.post('/register', [...], ...)]; [salt] is the outcome of
    [bcrypt.genSalt(10)].  Past the validation chains the three fields are
    strings. *)
Definition register (env : Env) (b : RegisterBody) (salt : string) (now : Z)
    : Handler.route :=
  let errors := register_errors env b in
  Handler.when (negb (Nat.eqb (List.length errors) 0))
    (Http.json 400 (Http.Errors errors)) ;;
  let username := Validator.toString (username b) in
  let email := Validator.toString (email b) in
  let password := Validator.toString (password b) in
  existing <- Handler.query
                (Db.select_user_by_email_or_username (collate env)
                   email username) ;;
  Handler.when (Nat.ltb 0 (List.length existing))
    (Http.json 400 (Http.Message "User already exists")) ;;
  let hashedPassword := bcrypt_hash env password salt in
  insertId <- Handler.insert
                (Db.insert_user username email hashedPassword now) ;;
  let token :=
    Jwt.sign {| Jwt.id := insertId; Jwt.username := username;
                Jwt.role := "user" |}
             (JWT_SECRET env) "24h" in
  Handler.send
    (Http.json 201
       (Http.AuthResult "User registered successfully" token
          {| Http.id := insertId; Http.username := username;
             Http.email := email; Http.role := "user" |})).

Record LoginBody : Type := {
  login_email : Js.value;
  login_password : Js.value
}.

(** Validation chains of [router.post('/login', ...)] *)
Definition login_errors (env : Env) (b : LoginBody)
    : list Validator.FieldError :=
  Validator.body "email" (Validator.isEmail (email_syntax env))
    "Valid email is required" (login_email b)
  ++ Validator.body "password" Validator.notEmpty "Password is required"
       (login_password b).

(** [router.post('/login', [...], ...)] *)
Definition login (env : Env) (b : LoginBody) : Handler.route :=
  let errors := login_errors env b in
  Handler.when (negb (Nat.eqb (List.length errors) 0))
    (Http.json 400 (Http.Errors errors)) ;;
  let email := Validator.toString (login_email b) in
  let password := Validator.toString (login_password b) in
  users <- Handler.query (Db.select_user_by_email (collate env) email) ;;
  match users with
  | [] => Handler.send (Http.json 401 (Http.Message "Invalid credentials"))
  | user :: _ =>
      Handler.when (negb (bcrypt_compare env password (Users.password user)))
        (Http.json 401 (Http.Message "Invalid credentials")) ;;
      let token :=
        Jwt.sign {| Jwt.id := Users.id user;
                    Jwt.username := Users.username user;
                    Jwt.role := Users.role user |}
                 (JWT_SECRET env) "24h" in
      Handler.send
        (Http.json 200
           (Http.AuthResult "Login successful" token
              {| Http.id := Users.id user;
                 Http.username := Users.username user;
                 Http.email := Users.email user;
                 Http.role := Users.role user |}))
  end.

End AuthRoutes.

(** ** Well-formed database states *)

Module Inv.

(** Every task's [user_id] references a row of [users]. *)
Definition owners_exist (st : Db.Store) : Prop :=
  forall t, In t (Db.tasks st) ->
    exists u, In u (Db.users st) /\ Users.id u = Tasks.user_id t.

(** [users.id] is a primary key. *)
Definition user_ids_unique (st : Db.Store) : Prop :=
  NoDup (map Users.id (Db.users st)).

(** [tasks.id] is a primary key. *)
Definition task_ids_unique (st : Db.Store) : Prop :=
  NoDup (map Tasks.id (Db.tasks st)).

(** The counters are ahead of every id handed out so far. *)
Definition user_ids_fresh (st : Db.Store) : Prop :=
  forall u, In u (Db.users st) -> Users.id u < Db.users_auto_increment st.

Definition task_ids_fresh (st : Db.Store) : Prop :=
  forall t, In t (Db.tasks st) -> Tasks.id t < Db.tasks_auto_increment st.

Record consistent (st : Db.Store) : Prop := {
  owners : owners_exist st;
  users_key : user_ids_unique st;
  tasks_key : task_ids_unique st;
  users_fresh : user_ids_fresh st;
  tasks_fresh : task_ids_fresh st
}.

End Inv.

(** ** Sample data used to exercise the statements *)

Module Sample.

Definition email_syntax (s : string) : bool :=
  match index 0 "@" s with
  | Some _ => true
  | None => false
  end.

Definition env : AuthRoutes.Env :=
  {| AuthRoutes.email_syntax := email_syntax;
     AuthRoutes.bcrypt_hash := fun p salt => (salt ++ "$" ++ p)%string;
     AuthRoutes.bcrypt_compare := fun p h =>
       match index 0 "$" h with
       | Some n => (substring (S n) (String.length h - S n) h =? p)%string
       | None => false
       end;
     AuthRoutes.JWT_SECRET := "s3cret";
     AuthRoutes.collate := String.eqb |}.

Definition alice : Users.row :=
  {| Users.id := 1; Users.username := "alice"; Users.email := "alice@x.com";
     Users.password := "sa$secret1"; Users.role := "user";
     Users.created_at := 100 |}.

Definition bob : Users.row :=
  {| Users.id := 2; Users.username := "bob"; Users.email := "bob@x.com";
     Users.password := "sb$hunter22"; Users.role := "user";
     Users.created_at := 110 |}.

Definition root : Users.row :=
  {| Users.id := 3; Users.username := "root"; Users.email := "root@x.com";
     Users.password := "sr$toor-toor"; Users.role := "admin";
     Users.created_at := 120 |}.

Definition milk : Tasks.row :=
  {| Tasks.id := 1; Tasks.title := "buy milk"; Tasks.description := None;
     Tasks.status := "pending"; Tasks.user_id := 1;
     Tasks.created_at := 200; Tasks.updated_at := 200 |}.

Definition report : Tasks.row :=
  {| Tasks.id := 2; Tasks.title := "write report";
     Tasks.description := Some "quarterly"; Tasks.status := "in-progress";
     Tasks.user_id := 2; Tasks.created_at := 300; Tasks.updated_at := 310 |}.

Definition bread : Tasks.row :=
  {| Tasks.id := 3; Tasks.title := "buy bread"; Tasks.description := None;
     Tasks.status := "completed"; Tasks.user_id := 1;
     Tasks.created_at := 250; Tasks.updated_at := 260 |}.

Definition store : Db.Store :=
  {| Db.users := [alice; bob; root];
     Db.tasks := [milk; report; bread];
     Db.users_auto_increment := 4;
     Db.tasks_auto_increment := 4 |}.

Definition claims_of (u : Users.row) : Jwt.Claims :=
  {| Jwt.id := Users.id u; Jwt.username := Users.username u;
     Jwt.role := Users.role u |}.

Definition no_fields : TaskRoutes.Body :=
  {| TaskRoutes.title := Js.Undefined;
     TaskRoutes.description := Js.Undefined;
     TaskRoutes.status := Js.Undefined |}.

Definition only_status (s : string) : TaskRoutes.Body :=
  {| TaskRoutes.title := Js.Undefined;
     TaskRoutes.description := Js.Undefined;
     TaskRoutes.status := Js.Str s |}.

Definition only_title (s : string) : TaskRoutes.Body :=
  {| TaskRoutes.title := Js.Str s;
     TaskRoutes.description := Js.Undefined;
     TaskRoutes.status := Js.Undefined |}.

End Sample.

(** Most recent first: the row listed earlier was not created before the
    row listed later. *)
Definition newest_first (r1 r2 : Tasks.joined) : Prop :=
  Tasks.created_at (Tasks.task r2) <= Tasks.created_at (Tasks.task r1).

(** The same configuration with another password-hashing function. *)
Definition with_bcrypt_hash (env : AuthRoutes.Env)
    (hash : string -> string -> string) : AuthRoutes.Env :=
  {| AuthRoutes.email_syntax := AuthRoutes.email_syntax env;
     AuthRoutes.bcrypt_hash := hash;
     AuthRoutes.bcrypt_compare := AuthRoutes.bcrypt_compare env;
     AuthRoutes.JWT_SECRET := AuthRoutes.JWT_SECRET env;
     AuthRoutes.collate := AuthRoutes.collate env |}.

(** ** components/TaskManager.jsx: the task form and list of the frontend *)

Module TaskManager.

(** [formData]: the three controlled inputs of the form. *)
Record FormData : Type := {
  title : string;
  description : string;
  status : string
}.

(** [useState({ title: '', description: '', status: 'pending' })] *)
Definition initial : FormData :=
  {| title := ""; description := ""; status := "pending" |}.

(** The [<option value=...>] entries of the status select. *)
Definition status_options : list string :=
  ["pending"; "in-progress"; "completed"].

(** White space removed by [String.prototype.trim], within ASCII: tab, line
    feed, vertical tab, form feed, carriage return and space. *)
Definition is_space (c : Ascii.ascii) : bool :=
  let n := Ascii.nat_of_ascii c in
  (Nat.leb 9 n && Nat.leb n 13) || Nat.eqb n 32.

Fixpoint trimStart (s : string) : string :=
  match s with
  | EmptyString => EmptyString
  | String c s' => if is_space c then trimStart s' else s
  end.

Fixpoint trimEnd (s : string) : string :=
  match s with
  | EmptyString => EmptyString
  | String c s' =>
      match trimEnd s' with
      | EmptyString => if is_space c then EmptyString else String c EmptyString
      | r => String c r
      end
  end.

Definition trim (s : string) : string := trimEnd (trimStart s).

(** The JSON body axios sends for [formData]. *)
Definition body_of (f : FormData) : TaskRoutes.Body :=
  {| TaskRoutes.title := Js.Str (title f);
     TaskRoutes.description := Js.Str (description f);
     TaskRoutes.status := Js.Str (status f) |}.

Inductive Request : Type :=
| Put (id : Z) (b : TaskRoutes.Body)   (* axios.put(`/tasks/${id}`, formData) *)
| Post (b : TaskRoutes.Body).          (* axios.post('/tasks', formData) *)

(** [handleSubmit], up to the request: a blank title raises the toast
    'Title is required' and nothing is sent; otherwise the form goes to PUT
    for the task being edited, to POST when none is. *)
Definition handleSubmit (editingTask : option Tasks.joined) (f : FormData)
    : string + Request :=
  if (trim (title f) =? "")%string
  then inl "Title is required"
  else match editingTask with
       | Some task => inr (Put (Tasks.id (Tasks.task task)) (body_of f))
       | None => inr (Post (body_of f))
       end.

(** [handleEdit]: the form is filled from the task; [task.description || ''] *)
Definition handleEdit (task : Tasks.joined) : FormData :=
  {| title := Tasks.title (Tasks.task task);
     description := match Tasks.description (Tasks.task task) with
                    | Some d => d
                    | None => ""
                    end;
     status := Tasks.status (Tasks.task task) |}.

(** [handleDelete], after a successful DELETE:
    [tasks.filter(task => task.id !== taskId)] *)
Definition handleDelete (taskId : Z) (tasks : list Tasks.joined)
    : list Tasks.joined :=
  filter (fun task => negb (Tasks.id (Tasks.task task) =? taskId)) tasks.

(** [getStatusClass] *)
Definition getStatusClass (status : string) : string :=
  if (status =? "pending")%string then "status-pending"
  else if (status =? "in-progress")%string then "status-in-progress"
  else if (status =? "completed")%string then "status-completed"
  else "".

(** [canModify]: [user?.role === 'admin' || task.user_id === user?.id],
    where [user] is the object of the login answer, or nothing. *)
Definition canModify (user : option Http.PublicUser) (task : Tasks.joined)
    : bool :=
  match user with
  | Some u =>
      (Http.role u =? "admin")%string
      || (Tasks.user_id (Tasks.task task) =? Http.id u)
  | None => false
  end.

End TaskManager.

(** ** Further well-formedness of the tables *)

(** A stored task has a title and one of the three statuses. *)
Definition task_valid (t : Tasks.row) : Prop :=
  Tasks.title t <> "" /\ In (Tasks.status t) TaskRoutes.statuses.

Definition tasks_valid (st : Db.Store) : Prop :=
  forall t, In t (Db.tasks st) -> task_valid t.

(** No two user rows agree on the email or on the username, under the
    collation of the table. *)
Definition users_distinct (collate : string -> string -> bool)
    (st : Db.Store) : Prop :=
  ForallOrdPairs
    (fun u1 u2 =>
       collate (Users.email u1) (Users.email u2) = false
       /\ collate (Users.username u1) (Users.username u2) = false)
    (Db.users st).

(** The payload a token carries for the user object of an answer. *)
Definition claims_of_public (u : Http.PublicUser) : Jwt.Claims :=
  {| Jwt.id := Http.id u; Jwt.username := Http.username u;
     Jwt.role := Http.role u |}.

(** One request to the API, and the answer of the router it is mounted
    under ([app.use('/api/auth', authRoutes)],
    [app.use('/api/tasks', taskRoutes)]); the task requests carry the
    payload of their verified token. *)
Inductive ApiRequest : Type :=
| Register (b : AuthRoutes.RegisterBody) (salt : string)
| Login (b : AuthRoutes.LoginBody)
| ListTasks (user : Jwt.Claims)
| GetTask (user : Jwt.Claims) (id : Z)
| CreateTask (user : Jwt.Claims) (b : TaskRoutes.Body)
| UpdateTask (user : Jwt.Claims) (id : Z) (b : TaskRoutes.Body)
| DeleteTask (user : Jwt.Claims) (id : Z).

Definition serve (env : AuthRoutes.Env) (now : Z) (req : ApiRequest)
    : Handler.route :=
  match req with
  | Register b salt => AuthRoutes.register env b salt now
  | Login b => AuthRoutes.login env b
  | ListTasks user => TaskRoutes.get_all user
  | GetTask user id => TaskRoutes.get_one user id
  | CreateTask user b => TaskRoutes.post user b now
  | UpdateTask user id b => TaskRoutes.put user id b now
  | DeleteTask user id => TaskRoutes.delete user id
  end.

(** The verified caller of a task request. *)
Definition caller (req : ApiRequest) : option Jwt.Claims :=
  match req with
  | Register _ _ | Login _ => None
  | ListTasks user | GetTask user _ | CreateTask user _
  | UpdateTask user _ _ | DeleteTask user _ => Some user
  end.

(** * Properties *)

(** ** Running a handler *)

Ltac run_handler :=
  unfold Handler.run, Handler.bind, Handler.when, Handler.query,
    Handler.insert, Handler.exec, Handler.send, Handler.ret, Http.json.

Lemma length_zero_nil {A : Type} (l : list A) :
  Nat.eqb (List.length l) 0 = true <-> l = [].
Proof.
  destruct l; simpl; split; intro H; try reflexivity; discriminate.
Qed.

Lemma sample_store_consistent : Inv.consistent Sample.store.
Proof.
  constructor.
  - intros t Ht. simpl in Ht.
    destruct Ht as [<- | [<- | [<- | []]]].
    + exists Sample.alice. simpl. auto.
    + exists Sample.bob. simpl. auto.
    + exists Sample.alice. simpl. auto.
  - unfold Inv.user_ids_unique. simpl.
    repeat constructor; simpl; intuition discriminate.
  - unfold Inv.task_ids_unique. simpl.
    repeat constructor; simpl; intuition discriminate.
  - intros u Hu. simpl in Hu.
    destruct Hu as [<- | [<- | [<- | []]]]; simpl; lia.
  - intros t Ht. simpl in Ht.
    destruct Ht as [<- | [<- | [<- | []]]]; simpl; lia.
Qed.

Lemma empty_store_consistent : Inv.consistent Db.empty.
Proof.
  constructor.
  - intros t [].
  - constructor.
  - constructor.
  - intros u [].
  - intros t [].
Qed.

(** ** Validation chains *)

Lemma body_nil path check m v :
  Validator.body path check m v = [] <-> check v = true.
Proof.
  unfold Validator.body. destruct (check v); split; intro H;
    try reflexivity; discriminate.
Qed.

Lemma body_fails path check m v :
  check v = false ->
  Validator.body path check m v
  = [ {| Validator.path := path; Validator.msg := m |} ].
Proof.
  unfold Validator.body. intros ->. reflexivity.
Qed.

Lemma notEmpty_false v :
  Validator.notEmpty v = false <-> Validator.toString v = "".
Proof.
  unfold Validator.notEmpty.
  destruct (Validator.toString v); simpl; split; intro H;
    try reflexivity; discriminate.
Qed.

Lemma isIn_spec allowed v :
  Validator.isIn allowed v = true <-> In (Validator.toString v) allowed.
Proof.
  unfold Validator.isIn. rewrite existsb_exists. split.
  - intros [x [Hin Heq]]. apply String.eqb_eq in Heq. now subst.
  - intros Hin. exists (Validator.toString v). split; [assumption|].
    apply String.eqb_refl.
Qed.

Lemma put_errors_nil b :
  TaskRoutes.put_errors b = [] <->
  Validator.optional Validator.notEmpty (TaskRoutes.title b) = true
  /\ Validator.optional (Validator.isIn TaskRoutes.statuses)
       (TaskRoutes.status b) = true.
Proof.
  unfold TaskRoutes.put_errors. split.
  - intros H. apply app_eq_nil in H. destruct H as [H1 H2].
    apply body_nil in H1. apply body_nil in H2. auto.
  - intros [H1 H2].
    apply (body_nil "title" _ Validator.invalid_value) in H1.
    apply (body_nil "status" _ Validator.invalid_value) in H2.
    rewrite H1, H2. reflexivity.
Qed.

(** ** Queries *)

Lemma select_task_absent st id :
  (forall t, In t (Db.tasks st) -> Tasks.id t <> id) ->
  Db.select_task id st = [].
Proof.
  unfold Db.select_task. intros H.
  induction (Db.tasks st) as [|t l IH]; simpl; [reflexivity|].
  destruct (Z.eqb_spec (Tasks.id t) id) as [E|E].
  - exfalso. apply (H t); [now left | exact E].
  - apply IH. intros t' Ht'. apply H. now right.
Qed.

(** ** Existence is checked before ownership *)

(** C5 (as amended): on a task id that is not in the store, delete answers
    404 "Task not found" for every caller, and so does every update whose
    body passes the validation chains; the store is left as it was. *)
Theorem missing_task_not_found (st : Db.Store) (user : Jwt.Claims) (id : Z) :
  (forall t, In t (Db.tasks st) -> Tasks.id t <> id) ->
  Handler.run (TaskRoutes.delete user id) st
  = (st, Http.json 404 (Http.Message "Task not found"))
  /\ forall b now,
       TaskRoutes.put_errors b = [] ->
       Handler.run (TaskRoutes.put user id b now) st
       = (st, Http.json 404 (Http.Message "Task not found")).
Proof.
  intros Habs. apply select_task_absent in Habs. split.
  - unfold TaskRoutes.delete. run_handler. rewrite Habs. reflexivity.
  - intros b now Hval. unfold TaskRoutes.put. rewrite Hval.
    run_handler. simpl. rewrite Habs. reflexivity.
Qed.

Lemma missing_task_not_found_witness :
  Handler.run (TaskRoutes.delete (Sample.claims_of Sample.root) 99)
    Sample.store
  = (Sample.store, Http.json 404 (Http.Message "Task not found"))
  /\ Handler.run
       (TaskRoutes.put (Sample.claims_of Sample.root) 99
          (Sample.only_status "completed") 500) Sample.store
     = (Sample.store, Http.json 404 (Http.Message "Task not found")).
Proof.
  assert (Habs : forall t, In t (Db.tasks Sample.store) -> Tasks.id t <> 99).
  { intros t Ht. simpl in Ht.
    destruct Ht as [<- | [<- | [<- | []]]]; simpl; lia. }
  destruct (missing_task_not_found Sample.store
              (Sample.claims_of Sample.root) 99 Habs) as [Hdel Hput].
  split; [exact Hdel|].
  apply Hput. reflexivity.
Defined.

(** C5 (as stated) fails: an update of a missing task whose title is the
    empty string is answered 400 by the validation chains, even for an
    administrator; the lookup is never reached. *)
Lemma missing_task_invalid_body :
  (forall t, In t (Db.tasks Sample.store) -> Tasks.id t <> 99)
  /\ Jwt.role (Sample.claims_of Sample.root) = "admin"
  /\ Handler.run
       (TaskRoutes.put (Sample.claims_of Sample.root) 99
          (Sample.only_title "") 500) Sample.store
     = (Sample.store,
        Http.json 400
          (Http.Errors [ {| Validator.path := "title";
                            Validator.msg := "Invalid value" |} ]))
  /\ snd (Handler.run
            (TaskRoutes.put (Sample.claims_of Sample.root) 99
               (Sample.only_title "") 500) Sample.store)
     <> Http.json 404 (Http.Message "Task not found").
Proof.
  split; [|split; [reflexivity | split; [reflexivity | discriminate]]].
  intros t Ht. simpl in Ht.
  destruct Ht as [<- | [<- | [<- | []]]]; simpl; lia.
Qed.

(** ** The access gate *)

Lemma denied_false user t :
  TaskRoutes.denied user t = false <->
  Jwt.role user = "admin" \/ Tasks.user_id t = Jwt.id user.
Proof.
  unfold TaskRoutes.denied.
  destruct (String.eqb_spec (Jwt.role user) "admin") as [Hr|Hr];
    destruct (Z.eqb_spec (Tasks.user_id t) (Jwt.id user)) as [Ho|Ho];
    simpl; split; intro H; auto; try discriminate.
  destruct H; contradiction.
Qed.

Lemma denied_true user t :
  TaskRoutes.denied user t = true <->
  Jwt.role user <> "admin" /\ Tasks.user_id t <> Jwt.id user.
Proof.
  unfold TaskRoutes.denied.
  destruct (String.eqb_spec (Jwt.role user) "admin") as [Hr|Hr];
    destruct (Z.eqb_spec (Tasks.user_id t) (Jwt.id user)) as [Ho|Ho];
    simpl; split; intro H; auto; try discriminate;
    destruct H; contradiction.
Qed.

Lemma hd_error_cons {A : Type} (l : list A) (a : A) :
  hd_error l = Some a -> exists l', l = a :: l'.
Proof.
  destruct l as [|x l']; simpl; intro H; [discriminate|].
  injection H as ->. now exists l'.
Qed.

(** ** Rejected updates *)

Lemma put_invalid user id b now st :
  TaskRoutes.put_errors b <> [] ->
  Handler.run (TaskRoutes.put user id b now) st
  = (st, Http.json 400 (Http.Errors (TaskRoutes.put_errors b))).
Proof.
  intros Hne. unfold TaskRoutes.put.
  destruct (TaskRoutes.put_errors b) as [|e errs]; [congruence|].
  reflexivity.
Qed.

(** C6 (as amended): an update whose title is the empty string, or whose
    status is a string outside pending / in-progress / completed, is
    answered 400 with the field errors, whatever the task and the caller;
    an update that supplies no field is answered 400 "No fields to update"
    when the task exists and the caller is an administrator or its owner.
    In each case the store, hence the task, is unchanged. *)
Theorem update_rejected (st : Db.Store) (user : Jwt.Claims) (id : Z)
    (b : TaskRoutes.Body) (now : Z) :
  (TaskRoutes.title b = Js.Str ""
   \/ (exists s, TaskRoutes.status b = Js.Str s
                 /\ ~ In s TaskRoutes.statuses) ->
   exists errors,
     errors <> []
     /\ Handler.run (TaskRoutes.put user id b now) st
        = (st, Http.json 400 (Http.Errors errors)))
  /\ (TaskRoutes.title b = Js.Undefined ->
      TaskRoutes.description b = Js.Undefined ->
      TaskRoutes.status b = Js.Undefined ->
      forall t,
        hd_error (Db.select_task id st) = Some t ->
        Jwt.role user = "admin" \/ Tasks.user_id t = Jwt.id user ->
        Handler.run (TaskRoutes.put user id b now) st
        = (st, Http.json 400 (Http.Message "No fields to update"))).
Proof.
  split.
  - intros Hbad. exists (TaskRoutes.put_errors b).
    assert (Hne : TaskRoutes.put_errors b <> []).
    { intros Hnil. apply put_errors_nil in Hnil. destruct Hnil as [Ht Hs].
      destruct Hbad as [Htitle | [s [Hstatus Hout]]].
      - rewrite Htitle in Ht. discriminate.
      - rewrite Hstatus in Hs. unfold Validator.optional in Hs.
        apply isIn_spec in Hs. apply Hout. exact Hs. }
    split; [exact Hne | now apply put_invalid].
  - intros Ht Hd Hs t Hhd Hallow.
    apply hd_error_cons in Hhd. destruct Hhd as [rest Hsel].
    apply denied_false in Hallow.
    unfold TaskRoutes.put, TaskRoutes.put_errors, TaskRoutes.put_updates.
    rewrite Ht, Hd, Hs. run_handler. simpl.
    rewrite Hsel, Hallow. reflexivity.
Qed.

Lemma update_rejected_witness :
  (exists errors,
     errors <> []
     /\ Handler.run
          (TaskRoutes.put (Sample.claims_of Sample.alice) 1
             (Sample.only_status "done") 500) Sample.store
        = (Sample.store, Http.json 400 (Http.Errors errors)))
  /\ Handler.run
       (TaskRoutes.put (Sample.claims_of Sample.alice) 1
          Sample.no_fields 500) Sample.store
     = (Sample.store, Http.json 400 (Http.Message "No fields to update")).
Proof.
  split.
  - apply (update_rejected Sample.store (Sample.claims_of Sample.alice) 1
             (Sample.only_status "done") 500).
    right. exists "done". split; [reflexivity|].
    simpl. intros [H | [H | [H | []]]]; discriminate.
  - apply (update_rejected Sample.store (Sample.claims_of Sample.alice) 1
             Sample.no_fields 500) with (t := Sample.milk);
      try reflexivity.
    right. reflexivity.
Defined.

(** C6 (as stated) fails: an update that supplies no field is answered
    404 when the task does not exist and 403 when the caller may not touch
    the task; the "No fields to update" check comes after both. *)
Lemma update_no_fields_not_validation :
  Handler.run
    (TaskRoutes.put (Sample.claims_of Sample.alice) 99
       Sample.no_fields 500) Sample.store
  = (Sample.store, Http.json 404 (Http.Message "Task not found"))
  /\ Handler.run
       (TaskRoutes.put (Sample.claims_of Sample.bob) 1
          Sample.no_fields 500) Sample.store
     = (Sample.store, Http.json 403 (Http.Message "Access denied"))
  /\ Http.status
       (snd (Handler.run
               (TaskRoutes.put (Sample.claims_of Sample.alice) 99
                  Sample.no_fields 500) Sample.store)) <> 400.
Proof.
  split; [reflexivity | split; [reflexivity | discriminate]].
Qed.

(** ** Creating a task *)

Lemma post_errors_nil b :
  TaskRoutes.post_errors b = [] <->
  Validator.notEmpty (TaskRoutes.title b) = true
  /\ Validator.optional (Validator.isIn TaskRoutes.statuses)
       (TaskRoutes.status b) = true.
Proof.
  unfold TaskRoutes.post_errors. split.
  - intros H. apply app_eq_nil in H. destruct H as [H1 H2].
    apply body_nil in H1. apply body_nil in H2. auto.
  - intros [H1 H2].
    apply (body_nil "title" _ "Title is required") in H1.
    apply (body_nil "status" _ Validator.invalid_value) in H2.
    rewrite H1, H2. reflexivity.
Qed.

Lemma post_invalid user b now st :
  TaskRoutes.post_errors b <> [] ->
  Handler.run (TaskRoutes.post user b now) st
  = (st, Http.json 400 (Http.Errors (TaskRoutes.post_errors b))).
Proof.
  intros Hne. unfold TaskRoutes.post.
  destruct (TaskRoutes.post_errors b) as [|e errs]; [congruence|].
  reflexivity.
Qed.

(** The row that was just inserted is the one [SELECT ... WHERE id = ?]
    finds under [result.insertId]. *)
Lemma select_inserted_task st title descr status uid now :
  Inv.task_ids_fresh st ->
  Db.select_task (snd (Db.insert_task title descr status uid now st))
    (fst (Db.insert_task title descr status uid now st))
  = [ {| Tasks.id := Db.tasks_auto_increment st; Tasks.title := title;
         Tasks.description := descr; Tasks.status := status;
         Tasks.user_id := uid;
         Tasks.created_at := now; Tasks.updated_at := now |} ].
Proof.
  intros Hfresh. unfold Db.insert_task, Db.select_task. simpl.
  rewrite filter_app. simpl. rewrite Z.eqb_refl.
  replace (filter _ (Db.tasks st)) with (@nil Tasks.row); [reflexivity|].
  symmetry. apply (select_task_absent st).
  intros t Ht. specialize (Hfresh t Ht). lia.
Qed.

(** C7 (as amended): a create whose title is empty (or missing) is answered
    400 with the field errors and stores nothing, and so is a create whose
    supplied status ([null] included) is not one of pending / in-progress /
    completed; a create whose title is not empty and whose status is either
    not supplied or one of the three appends one task with that title, the
    supplied status or pending by default, and the caller's id as owner,
    and answers 201 with that task. *)
Theorem create_task (st : Db.Store) (user : Jwt.Claims)
    (b : TaskRoutes.Body) (now : Z) :
  (Validator.toString (TaskRoutes.title b) = "" ->
   exists errors,
     errors <> []
     /\ Handler.run (TaskRoutes.post user b now) st
        = (st, Http.json 400 (Http.Errors errors)))
  /\ (TaskRoutes.status b <> Js.Undefined ->
      ~ In (Validator.toString (TaskRoutes.status b)) TaskRoutes.statuses ->
      exists errors,
        In {| Validator.path := "status";
              Validator.msg := Validator.invalid_value |} errors
        /\ Handler.run (TaskRoutes.post user b now) st
           = (st, Http.json 400 (Http.Errors errors)))
  /\ (Validator.toString (TaskRoutes.title b) <> "" ->
      TaskRoutes.status b = Js.Undefined
      \/ (exists s, TaskRoutes.status b = Js.Str s
                    /\ In s TaskRoutes.statuses) ->
      Inv.task_ids_fresh st ->
      exists st' t,
        Handler.run (TaskRoutes.post user b now) st
        = (st', Http.json 201
                  (Http.TaskResult "Task created successfully" (Some t)))
        /\ Db.tasks st' = Db.tasks st ++ [t]
        /\ Db.users st' = Db.users st
        /\ Tasks.title t = Validator.toString (TaskRoutes.title b)
        /\ Tasks.status t
           = match TaskRoutes.status b with
             | Js.Str s => s
             | _ => "pending"
             end
        /\ Tasks.user_id t = Jwt.id user).
Proof.
  split; [|split].
  - intros Hempty. exists (TaskRoutes.post_errors b).
    assert (Hne : TaskRoutes.post_errors b <> []).
    { intros Hnil. apply post_errors_nil in Hnil. destruct Hnil as [Ht _].
      apply notEmpty_false in Hempty. congruence. }
    split; [exact Hne | now apply post_invalid].
  - intros Hsupplied Hout. exists (TaskRoutes.post_errors b).
    assert (Hbad : Validator.optional (Validator.isIn TaskRoutes.statuses)
                     (TaskRoutes.status b) = false).
    { destruct (Validator.optional _ (TaskRoutes.status b)) eqn:E;
        [|reflexivity].
      exfalso. apply Hout. apply isIn_spec.
      destruct (TaskRoutes.status b); [contradiction | exact E | exact E]. }
    assert (Hin : In {| Validator.path := "status";
                        Validator.msg := Validator.invalid_value |}
                     (TaskRoutes.post_errors b)).
    { unfold TaskRoutes.post_errors. apply in_app_iff. right.
      rewrite (body_fails "status" _ Validator.invalid_value _ Hbad).
      now left. }
    split; [exact Hin|]. apply post_invalid.
    intros Hnil. rewrite Hnil in Hin. destruct Hin.
  - intros Htitle Hstatus Hfresh.
    assert (Hval : TaskRoutes.post_errors b = []).
    { apply post_errors_nil. split.
      - destruct (Validator.notEmpty (TaskRoutes.title b)) eqn:E;
          [reflexivity|]. apply notEmpty_false in E. contradiction.
      - destruct Hstatus as [-> | [s [-> Hin]]]; [reflexivity|].
        unfold Validator.optional. now apply isIn_spec. }
    pose proof (select_inserted_task st
                  (Validator.toString (TaskRoutes.title b))
                  (Db.param (TaskRoutes.description b))
                  (Validator.toString
                     (Js.default "pending" (TaskRoutes.status b)))
                  (Jwt.id user) now Hfresh) as Hsel.
    unfold TaskRoutes.post. rewrite Hval. run_handler.
    cbn [List.length Nat.eqb negb].
    destruct (Db.insert_task _ _ _ _ _ st) as [st' insertId] eqn:Hins.
    cbn [fst snd] in Hsel. rewrite Hsel.
    unfold Db.insert_task in Hins. injection Hins as <- <-.
    eexists. eexists. split; [reflexivity|]. simpl.
    repeat split.
    destruct Hstatus as [-> | [s [-> _]]]; reflexivity.
Qed.

Lemma create_task_witness :
  (exists errors,
     errors <> []
     /\ Handler.run
          (TaskRoutes.post (Sample.claims_of Sample.bob)
             (Sample.only_title "") 500) Sample.store
        = (Sample.store, Http.json 400 (Http.Errors errors)))
  /\ (exists errors,
        In {| Validator.path := "status";
              Validator.msg := Validator.invalid_value |} errors
        /\ Handler.run
             (TaskRoutes.post (Sample.claims_of Sample.bob)
                {| TaskRoutes.title := Js.Str "call mum";
                   TaskRoutes.description := Js.Undefined;
                   TaskRoutes.status := Js.Null |} 500) Sample.store
           = (Sample.store, Http.json 400 (Http.Errors errors)))
  /\ exists st' t,
       Handler.run
         (TaskRoutes.post (Sample.claims_of Sample.bob)
            (Sample.only_title "call mum") 500) Sample.store
       = (st', Http.json 201
                 (Http.TaskResult "Task created successfully" (Some t)))
       /\ Db.tasks st' = Db.tasks Sample.store ++ [t]
       /\ Db.users st' = Db.users Sample.store
       /\ Tasks.title t = "call mum"
       /\ Tasks.status t = "pending"
       /\ Tasks.user_id t = 2.
Proof.
  split; [|split].
  - apply (create_task Sample.store (Sample.claims_of Sample.bob)
             (Sample.only_title "") 500).
    reflexivity.
  - apply (create_task Sample.store (Sample.claims_of Sample.bob)
             {| TaskRoutes.title := Js.Str "call mum";
                TaskRoutes.description := Js.Undefined;
                TaskRoutes.status := Js.Null |} 500).
    + discriminate.
    + simpl. intros [H | [H | [H | []]]]; discriminate.
  - apply (create_task Sample.store (Sample.claims_of Sample.bob)
             (Sample.only_title "call mum") 500).
    + discriminate.
    + left. reflexivity.
    + exact (Inv.tasks_fresh _ sample_store_consistent).
Defined.

(** C7 (as stated) fails: a create with a non-empty title and a status
    outside the three values is answered 400 and stores nothing. *)
Lemma create_task_bad_status :
  let b := {| TaskRoutes.title := Js.Str "call mum";
              TaskRoutes.description := Js.Undefined;
              TaskRoutes.status := Js.Str "urgent" |} in
  Validator.toString (TaskRoutes.title b) <> ""
  /\ Handler.run (TaskRoutes.post (Sample.claims_of Sample.bob) b 500)
       Sample.store
     = (Sample.store,
        Http.json 400
          (Http.Errors [ {| Validator.path := "status";
                            Validator.msg := "Invalid value" |} ]))
  /\ Db.tasks
       (fst (Handler.run (TaskRoutes.post (Sample.claims_of Sample.bob) b 500)
               Sample.store))
     = Db.tasks Sample.store.
Proof.
  simpl. split; [discriminate | split; reflexivity].
Qed.

(** ** Login *)

Lemma login_invalid env b st :
  AuthRoutes.login_errors env b <> [] ->
  Handler.run (AuthRoutes.login env b) st
  = (st, Http.json 400 (Http.Errors (AuthRoutes.login_errors env b))).
Proof.
  intros Hne. unfold AuthRoutes.login.
  destruct (AuthRoutes.login_errors env b) as [|e errs]; [congruence|].
  reflexivity.
Qed.

Lemma login_errors_nil env b :
  AuthRoutes.login_errors env b = [] <->
  Validator.isEmail (AuthRoutes.email_syntax env) (AuthRoutes.login_email b)
  = true
  /\ Validator.notEmpty (AuthRoutes.login_password b) = true.
Proof.
  unfold AuthRoutes.login_errors. split.
  - intros H. apply app_eq_nil in H. destruct H as [H1 H2].
    apply body_nil in H1. apply body_nil in H2. auto.
  - intros [H1 H2].
    apply (body_nil "email" _ "Valid email is required") in H1.
    apply (body_nil "password" _ "Password is required") in H2.
    rewrite H1, H2. reflexivity.
Qed.

(** C10: a login whose email is malformed or whose password is empty is
    answered 400 with the field errors; the answer is fixed by the request
    alone, the same for every state of the credential store, which is left
    as it was. *)
Theorem login_validation_first (env : AuthRoutes.Env)
    (b : AuthRoutes.LoginBody) :
  Validator.isEmail (AuthRoutes.email_syntax env) (AuthRoutes.login_email b)
  = false
  \/ Validator.toString (AuthRoutes.login_password b) = "" ->
  exists errors,
    errors <> []
    /\ forall st,
         Handler.run (AuthRoutes.login env b) st
         = (st, Http.json 400 (Http.Errors errors)).
Proof.
  intros Hbad. exists (AuthRoutes.login_errors env b).
  assert (Hne : AuthRoutes.login_errors env b <> []).
  { intros Hnil. apply login_errors_nil in Hnil. destruct Hnil as [He Hp].
    destruct Hbad as [Hbad | Hbad].
    - congruence.
    - apply notEmpty_false in Hbad. congruence. }
  split; [exact Hne|]. intros st. now apply login_invalid.
Qed.

Lemma login_validation_first_witness :
  exists errors,
    errors <> []
    /\ forall st,
         Handler.run
           (AuthRoutes.login Sample.env
              {| AuthRoutes.login_email := Js.Str "alice.x.com";
                 AuthRoutes.login_password := Js.Str "secret1" |}) st
         = (st, Http.json 400 (Http.Errors errors)).
Proof.
  apply (login_validation_first Sample.env).
  left. reflexivity.
Defined.




(** ** Registration *)

Lemma register_invalid env b salt now st :
  AuthRoutes.register_errors env b <> [] ->
  Handler.run (AuthRoutes.register env b salt now) st
  = (st, Http.json 400 (Http.Errors (AuthRoutes.register_errors env b))).
Proof.
  intros Hne. unfold AuthRoutes.register.
  destruct (AuthRoutes.register_errors env b) as [|e errs]; [congruence|].
  reflexivity.
Qed.

Lemma register_errors_nil env b :
  AuthRoutes.register_errors env b = [] <->
  Validator.notEmpty (AuthRoutes.username b) = true
  /\ Validator.isEmail (AuthRoutes.email_syntax env) (AuthRoutes.email b)
     = true
  /\ Validator.isLength_min 6 (AuthRoutes.password b) = true.
Proof.
  unfold AuthRoutes.register_errors. split.
  - intros H. apply app_eq_nil in H. destruct H as [H1 H].
    apply app_eq_nil in H. destruct H as [H2 H3].
    apply body_nil in H1. apply body_nil in H2. apply body_nil in H3. auto.
  - intros [H1 [H2 H3]].
    apply (body_nil "username" _ "Username is required") in H1.
    apply (body_nil "email" _ "Valid email is required") in H2.
    apply (body_nil "password" _ "Password must be at least 6 characters")
      in H3.
    rewrite H1, H2, H3. reflexivity.
Qed.

Lemma register_existing env b salt now st u others :
  AuthRoutes.register_errors env b = [] ->
  Db.select_user_by_email_or_username (AuthRoutes.collate env)
    (Validator.toString (AuthRoutes.email b))
    (Validator.toString (AuthRoutes.username b)) st = u :: others ->
  Handler.run (AuthRoutes.register env b salt now) st
  = (st, Http.json 400 (Http.Message "User already exists")).
Proof.
  intros Hval Hsel. unfold AuthRoutes.register. rewrite Hval.
  run_handler. simpl. rewrite Hsel. reflexivity.
Qed.

Lemma register_fresh env b salt now st :
  AuthRoutes.register_errors env b = [] ->
  Db.select_user_by_email_or_username (AuthRoutes.collate env)
    (Validator.toString (AuthRoutes.email b))
    (Validator.toString (AuthRoutes.username b)) st = [] ->
  Handler.run (AuthRoutes.register env b salt now) st
  = (fst (Db.insert_user
            (Validator.toString (AuthRoutes.username b))
            (Validator.toString (AuthRoutes.email b))
            (AuthRoutes.bcrypt_hash env
               (Validator.toString (AuthRoutes.password b)) salt) now st),
     Http.json 201
       (Http.AuthResult "User registered successfully"
          (Jwt.sign
             {| Jwt.id := Db.users_auto_increment st;
                Jwt.username := Validator.toString (AuthRoutes.username b);
                Jwt.role := "user" |}
             (AuthRoutes.JWT_SECRET env) "24h")
          {| Http.id := Db.users_auto_increment st;
             Http.username := Validator.toString (AuthRoutes.username b);
             Http.email := Validator.toString (AuthRoutes.email b);
             Http.role := "user" |})).
Proof.
  intros Hval Hsel. unfold AuthRoutes.register. rewrite Hval.
  run_handler. simpl. rewrite Hsel. reflexivity.
Qed.

Lemma filter_In_cons {A : Type} (f : A -> bool) (l : list A) (a : A) :
  In a l -> f a = true -> exists x rest, filter f l = x :: rest.
Proof.
  intros Hin Hf.
  assert (Hin' : In a (filter f l)) by (apply filter_In; auto).
  destruct (filter f l) as [|x rest]; [destruct Hin'|].
  now exists x, rest.
Qed.

(** C3 (as amended): a registration whose username or email equals that of
    a stored user leaves the credential store unchanged; when the request
    passes the validation chains it is answered 400 "User already exists",
    and when it does not (empty username, malformed email or a password of
    fewer than 6 characters) it is answered 400 with the field errors.
    Equal strings are equal under the collation of the table. *)
Theorem register_duplicate (env : AuthRoutes.Env) (st : Db.Store)
    (b : AuthRoutes.RegisterBody) (salt : string) (now : Z) :
  (forall s, AuthRoutes.collate env s s = true) ->
  (exists u,
     In u (Db.users st)
     /\ (Users.username u = Validator.toString (AuthRoutes.username b)
         \/ Users.email u = Validator.toString (AuthRoutes.email b))) ->
  fst (Handler.run (AuthRoutes.register env b salt now) st) = st
  /\ (AuthRoutes.register_errors env b = [] ->
      Handler.run (AuthRoutes.register env b salt now) st
      = (st, Http.json 400 (Http.Message "User already exists")))
  /\ (Validator.toString (AuthRoutes.username b) = ""
      \/ Validator.isEmail (AuthRoutes.email_syntax env) (AuthRoutes.email b)
         = false
      \/ (String.length (Validator.toString (AuthRoutes.password b)) < 6)%nat
      ->
      exists errors,
        errors <> []
        /\ Handler.run (AuthRoutes.register env b salt now) st
           = (st, Http.json 400 (Http.Errors errors))).
Proof.
  intros Hrefl [u [Hin Hdup]].
  assert (Hfound : exists x rest,
            Db.select_user_by_email_or_username (AuthRoutes.collate env)
              (Validator.toString (AuthRoutes.email b))
              (Validator.toString (AuthRoutes.username b)) st = x :: rest).
  { apply filter_In_cons with (a := u); [exact Hin|].
    destruct Hdup as [<- | <-]; rewrite Hrefl; auto using orb_true_r. }
  destruct Hfound as [x [rest Hsel]].
  split; [|split].
  - destruct (AuthRoutes.register_errors env b) as [|e errs] eqn:Herr.
    + now rewrite (register_existing env b salt now st x rest Herr Hsel).
    + rewrite register_invalid by congruence. reflexivity.
  - intros Herr. exact (register_existing env b salt now st x rest Herr Hsel).
  - intros Hbad. exists (AuthRoutes.register_errors env b).
    assert (Hne : AuthRoutes.register_errors env b <> []).
    { intros Hnil. apply register_errors_nil in Hnil.
      destruct Hnil as [Hu [He Hp]].
      destruct Hbad as [Hbad | [Hbad | Hbad]].
      - apply notEmpty_false in Hbad. congruence.
      - congruence.
      - unfold Validator.isLength_min in Hp. apply Nat.leb_le in Hp. lia. }
    split; [exact Hne | now apply register_invalid].
Qed.

Lemma register_duplicate_witness :
  let b := {| AuthRoutes.username := Js.Str "alice2";
              AuthRoutes.email := Js.Str "alice@x.com";
              AuthRoutes.password := Js.Str "secret2" |} in
  let short := {| AuthRoutes.username := Js.Str "alice2";
                  AuthRoutes.email := Js.Str "alice@x.com";
                  AuthRoutes.password := Js.Str "abc" |} in
  fst (Handler.run (AuthRoutes.register Sample.env b "sa" 500) Sample.store)
  = Sample.store
  /\ Handler.run (AuthRoutes.register Sample.env b "sa" 500) Sample.store
     = (Sample.store, Http.json 400 (Http.Message "User already exists"))
  /\ exists errors,
       errors <> []
       /\ Handler.run (AuthRoutes.register Sample.env short "sa" 500)
            Sample.store
          = (Sample.store, Http.json 400 (Http.Errors errors)).
Proof.
  intros b short.
  assert (Hrefl : forall s, AuthRoutes.collate Sample.env s s = true)
    by (intros s; apply String.eqb_refl).
  destruct (register_duplicate Sample.env Sample.store b "sa" 500 Hrefl)
    as [Hstore [Hanswer _]].
  { exists Sample.alice. split; [simpl; auto | right; reflexivity]. }
  destruct (register_duplicate Sample.env Sample.store short "sa" 500 Hrefl)
    as [_ [_ Hfields]].
  { exists Sample.alice. split; [simpl; auto | right; reflexivity]. }
  split; [exact Hstore|]. split; [apply Hanswer; reflexivity|].
  apply Hfields. right. right. simpl. lia.
Defined.

(** C3 (as stated) fails: a registration with the email of a stored user
    and a password of three characters is answered 400 with the password
    field error, not "User already exists". *)
Lemma register_duplicate_short_password :
  let b := {| AuthRoutes.username := Js.Str "alice2";
              AuthRoutes.email := Js.Str "alice@x.com";
              AuthRoutes.password := Js.Str "abc" |} in
  Users.email Sample.alice = Validator.toString (AuthRoutes.email b)
  /\ In Sample.alice (Db.users Sample.store)
  /\ Handler.run (AuthRoutes.register Sample.env b "sa" 500) Sample.store
     = (Sample.store,
        Http.json 400
          (Http.Errors
             [ {| Validator.path := "password";
                  Validator.msg := "Password must be at least 6 characters"
               |} ]))
  /\ snd (Handler.run (AuthRoutes.register Sample.env b "sa" 500)
            Sample.store)
     <> Http.json 400 (Http.Message "User already exists").
Proof.
  simpl. repeat split; auto. discriminate.
Qed.

(** C9: a registration answered 201 has appended exactly one user row, with
    role user and the hashed password; the answer carries a token and the
    public fields id, username, email and role of that row; the payload of
    the token holds the row's id, its username and role user, and the token
    is signed with the server's secret for 24 hours.  The answer is the
    same whatever the hashing function computes: it carries nothing of the
    stored hash. *)
Theorem register_success (env : AuthRoutes.Env) (st st' : Db.Store)
    (b : AuthRoutes.RegisterBody) (salt : string) (now : Z)
    (r : Http.Response) :
  Handler.run (AuthRoutes.register env b salt now) st = (st', r) ->
  Http.status r = 201 ->
  exists u token user,
    Db.users st' = Db.users st ++ [u]
    /\ Db.tasks st' = Db.tasks st
    /\ Users.role u = "user"
    /\ Users.username u = Validator.toString (AuthRoutes.username b)
    /\ Users.email u = Validator.toString (AuthRoutes.email b)
    /\ Users.password u
       = AuthRoutes.bcrypt_hash env
           (Validator.toString (AuthRoutes.password b)) salt
    /\ r = Http.json 201
             (Http.AuthResult "User registered successfully" token user)
    /\ Jwt.role (Jwt.payload token) = "user"
    /\ Jwt.id (Jwt.payload token) = Users.id u
    /\ Jwt.username (Jwt.payload token) = Users.username u
    /\ Jwt.secret token = AuthRoutes.JWT_SECRET env
    /\ Jwt.expiresIn token = "24h"
    /\ Http.id user = Users.id u
    /\ Http.username user = Users.username u
    /\ Http.email user = Users.email u
    /\ Http.role user = "user"
    /\ forall hash,
         snd (Handler.run
                (AuthRoutes.register (with_bcrypt_hash env hash) b salt now)
                st) = r.
Proof.
  intros Hrun Hstatus.
  destruct (AuthRoutes.register_errors env b) as [|e errs] eqn:Herr.
  2:{ rewrite register_invalid in Hrun by congruence.
      injection Hrun as <- <-. discriminate. }
  destruct (Db.select_user_by_email_or_username (AuthRoutes.collate env)
              (Validator.toString (AuthRoutes.email b))
              (Validator.toString (AuthRoutes.username b)) st)
    as [|x rest] eqn:Hsel.
  2:{ rewrite (register_existing env b salt now st x rest Herr Hsel) in Hrun.
      injection Hrun as <- <-. discriminate. }
  rewrite (register_fresh env b salt now st Herr Hsel) in Hrun.
  injection Hrun as <- <-.
  eexists. eexists. eexists.
  split; [reflexivity|].
  split; [reflexivity|].
  split; [reflexivity|].
  split; [reflexivity|].
  split; [reflexivity|].
  split; [reflexivity|].
  split; [reflexivity|].
  split; [reflexivity|].
  split; [reflexivity|].
  split; [reflexivity|].
  split; [reflexivity|].
  split; [reflexivity|].
  split; [reflexivity|].
  split; [reflexivity|].
  split; [reflexivity|].
  split; [reflexivity|].
  intros hash.
  rewrite (register_fresh (with_bcrypt_hash env hash) b salt now st Herr Hsel).
  reflexivity.
Qed.

Lemma register_success_witness :
  let b := {| AuthRoutes.username := Js.Str "carol";
              AuthRoutes.email := Js.Str "carol@x.com";
              AuthRoutes.password := Js.Str "secret3" |} in
  let out := Handler.run (AuthRoutes.register Sample.env b "sc" 500)
               Sample.store in
  exists u token user,
    Db.users (fst out) = Db.users Sample.store ++ [u]
    /\ Db.tasks (fst out) = Db.tasks Sample.store
    /\ Users.role u = "user"
    /\ Users.username u = "carol"
    /\ Users.email u = "carol@x.com"
    /\ Users.password u = "sc$secret3"
    /\ snd out
       = Http.json 201
           (Http.AuthResult "User registered successfully" token user)
    /\ Jwt.role (Jwt.payload token) = "user"
    /\ Jwt.id (Jwt.payload token) = Users.id u
    /\ Jwt.username (Jwt.payload token) = Users.username u
    /\ Jwt.secret token = "s3cret"
    /\ Jwt.expiresIn token = "24h"
    /\ Http.id user = Users.id u
    /\ Http.username user = Users.username u
    /\ Http.email user = Users.email u
    /\ Http.role user = "user"
    /\ forall hash,
         snd (Handler.run
                (AuthRoutes.register (with_bcrypt_hash Sample.env hash) b
                   "sc" 500) Sample.store) = snd out.
Proof.
  intros b out.
  apply (register_success Sample.env Sample.store (fst out) b "sc" 500
           (snd out)); reflexivity.
Defined.

(** ** Updating a task *)

Lemma assign_frame sets t :
  Tasks.id (fold_left Tasks.assign sets t) = Tasks.id t
  /\ Tasks.user_id (fold_left Tasks.assign sets t) = Tasks.user_id t
  /\ Tasks.created_at (fold_left Tasks.assign sets t) = Tasks.created_at t.
Proof.
  revert t. induction sets as [|a sets IH]; intros t; simpl.
  - auto.
  - destruct (IH (Tasks.assign t a)) as [H1 [H2 H3]].
    rewrite H1, H2, H3. destruct a; simpl; auto.
Qed.

Lemma updated_row_id sets now t :
  Tasks.id (Tasks.touch now (fold_left Tasks.assign sets t)) = Tasks.id t.
Proof.
  simpl. apply assign_frame.
Qed.

(** After [UPDATE ... WHERE id = ?], the rows under that id are the former
    ones, each with the assignments applied. *)
Lemma select_task_update sets id now st :
  Db.select_task id (Db.update_task sets id now st)
  = map (fun t => Tasks.touch now (fold_left Tasks.assign sets t))
        (Db.select_task id st).
Proof.
  unfold Db.select_task, Db.update_task. simpl.
  induction (Db.tasks st) as [|t l IH]; simpl; [reflexivity|].
  destruct (Z.eqb_spec (Tasks.id t) id) as [E|E].
  - rewrite updated_row_id.
    destruct (Z.eqb_spec (Tasks.id t) id); [|contradiction].
    simpl. now rewrite IH.
  - destruct (Z.eqb_spec (Tasks.id t) id); [contradiction|].
    exact IH.
Qed.

(** Rows under another id are not touched. *)
Lemma update_task_others sets id now st :
  Db.tasks (Db.delete_task id (Db.update_task sets id now st))
  = Db.tasks (Db.delete_task id st).
Proof.
  unfold Db.delete_task, Db.update_task. simpl.
  induction (Db.tasks st) as [|t l IH]; simpl; [reflexivity|].
  destruct (Z.eqb_spec (Tasks.id t) id) as [E|E].
  - rewrite updated_row_id.
    destruct (Z.eqb_spec (Tasks.id t) id); [|contradiction].
    simpl. exact IH.
  - destruct (Z.eqb_spec (Tasks.id t) id); [contradiction|].
    simpl. now rewrite IH.
Qed.

Lemma put_updates_frame b t :
  (TaskRoutes.title b = Js.Undefined ->
   Tasks.title (fold_left Tasks.assign (TaskRoutes.put_updates b) t)
   = Tasks.title t)
  /\ (TaskRoutes.description b = Js.Undefined ->
      Tasks.description (fold_left Tasks.assign (TaskRoutes.put_updates b) t)
      = Tasks.description t)
  /\ (TaskRoutes.status b = Js.Undefined ->
      Tasks.status (fold_left Tasks.assign (TaskRoutes.put_updates b) t)
      = Tasks.status t).
Proof.
  unfold TaskRoutes.put_updates.
  repeat split; intros ->; simpl;
    repeat match goal with
           | |- context [if ?c then _ else _] => destruct c
           end; reflexivity.
Qed.

(** What an update that reaches the gate does. *)
Lemma put_valid user id b now st t others :
  TaskRoutes.put_errors b = [] ->
  Db.select_task id st = t :: others ->
  Handler.run (TaskRoutes.put user id b now) st
  = if TaskRoutes.denied user t
    then (st, Http.json 403 (Http.Message "Access denied"))
    else match TaskRoutes.put_updates b with
         | [] => (st, Http.json 400 (Http.Message "No fields to update"))
         | sets =>
             (Db.update_task sets id now st,
              Http.json 200
                (Http.TaskResult "Task updated successfully"
                   (hd_error
                      (Db.select_task id (Db.update_task sets id now st)))))
         end.
Proof.
  intros Hval Hsel. unfold TaskRoutes.put. rewrite Hval.
  run_handler. simpl. rewrite Hsel.
  destruct (TaskRoutes.denied user t); [reflexivity|].
  destruct (TaskRoutes.put_updates b); reflexivity.
Qed.

(** C8: after an update answered 200, the task returned, which is the one
    now stored under that id, has the id, the owner and the creation time
    it had before, and the title, description and status it had before
    wherever the request leaves that field out; the users and the tasks
    under other ids are unchanged. *)
Theorem update_frame (st st' : Db.Store) (user : Jwt.Claims) (id : Z)
    (b : TaskRoutes.Body) (now : Z) (r : Http.Response) :
  Handler.run (TaskRoutes.put user id b now) st = (st', r) ->
  Http.status r = 200 ->
  exists t t',
    hd_error (Db.select_task id st) = Some t
    /\ hd_error (Db.select_task id st') = Some t'
    /\ r = Http.json 200
             (Http.TaskResult "Task updated successfully" (Some t'))
    /\ Tasks.id t' = Tasks.id t
    /\ Tasks.user_id t' = Tasks.user_id t
    /\ Tasks.created_at t' = Tasks.created_at t
    /\ (TaskRoutes.title b = Js.Undefined -> Tasks.title t' = Tasks.title t)
    /\ (TaskRoutes.description b = Js.Undefined ->
        Tasks.description t' = Tasks.description t)
    /\ (TaskRoutes.status b = Js.Undefined ->
        Tasks.status t' = Tasks.status t)
    /\ Db.users st' = Db.users st
    /\ Db.tasks (Db.delete_task id st') = Db.tasks (Db.delete_task id st).
Proof.
  intros Hrun Hstatus.
  destruct (TaskRoutes.put_errors b) as [|e errs] eqn:Herr.
  2:{ rewrite put_invalid in Hrun by congruence.
      injection Hrun as <- <-. discriminate. }
  destruct (Db.select_task id st) as [|t others] eqn:Hsel.
  { unfold TaskRoutes.put in Hrun. rewrite Herr in Hrun.
    revert Hrun. run_handler. simpl. rewrite Hsel.
    intros Hrun. injection Hrun as <- <-. discriminate. }
  rewrite (put_valid user id b now st t others Herr Hsel) in Hrun.
  destruct (TaskRoutes.denied user t).
  { injection Hrun as <- <-. discriminate. }
  destruct (TaskRoutes.put_updates b) as [|a sets] eqn:Hupd.
  { injection Hrun as <- <-. discriminate. }
  injection Hrun as <- <-.
  rewrite select_task_update, Hsel. simpl hd_error.
  exists t. eexists. split; [reflexivity|]. split; [reflexivity|].
  split; [reflexivity|].
  destruct (assign_frame (a :: sets) t) as [Hid [Howner Hcreated]].
  destruct (put_updates_frame b t) as [Htitle [Hdescr Hst]].
  rewrite Hupd in Htitle, Hdescr, Hst.
  repeat split; try assumption.
  apply update_task_others.
Qed.

Lemma update_frame_witness :
  let out := Handler.run
               (TaskRoutes.put (Sample.claims_of Sample.alice) 1
                  (Sample.only_status "completed") 500) Sample.store in
  exists t t',
    hd_error (Db.select_task 1 Sample.store) = Some t
    /\ hd_error (Db.select_task 1 (fst out)) = Some t'
    /\ snd out
       = Http.json 200
           (Http.TaskResult "Task updated successfully" (Some t'))
    /\ Tasks.id t' = Tasks.id t
    /\ Tasks.user_id t' = Tasks.user_id t
    /\ Tasks.created_at t' = Tasks.created_at t
    /\ Tasks.title t' = Tasks.title t
    /\ Tasks.description t' = Tasks.description t
    /\ Db.users (fst out) = Db.users Sample.store
    /\ Db.tasks (Db.delete_task 1 (fst out))
       = Db.tasks (Db.delete_task 1 Sample.store).
Proof.
  intro out.
  destruct (update_frame Sample.store (fst out)
              (Sample.claims_of Sample.alice) 1
              (Sample.only_status "completed") 500 (snd out)
              eq_refl eq_refl)
    as [t [t' [H1 [H2 [H3 [H4 [H5 [H6 [H7 [H8 [_ [H10 H11]]]]]]]]]]]].
  exists t, t'. repeat split; try assumption.
  - apply H7. reflexivity.
  - apply H8. reflexivity.
Defined.

(** ** Keys and joins *)

Lemma filter_none {A : Type} (f : A -> bool) (l : list A) :
  (forall x, In x l -> f x = false) -> filter f l = [].
Proof.
  induction l as [|a l IH]; simpl; intros H; [reflexivity|].
  rewrite (H a) by now left. apply IH. intros x Hx. apply H. now right.
Qed.

(** Under a key, [WHERE key = ?] finds exactly the row that has it. *)
Lemma filter_key {A : Type} (key : A -> Z) (l : list A) (a : A) :
  NoDup (map key l) -> In a l ->
  filter (fun x => key x =? key a) l = [a].
Proof.
  induction l as [|x l IH]; simpl; intros Hnd Hin; [destruct Hin|].
  inversion Hnd as [|k ks Hnotin Hnd']; subst.
  destruct Hin as [-> | Hin].
  - rewrite Z.eqb_refl. f_equal. apply filter_none.
    intros y Hy. apply Z.eqb_neq. intros E. apply Hnotin.
    rewrite <- E. now apply in_map.
  - destruct (Z.eqb_spec (key x) (key a)) as [E|E].
    + exfalso. apply Hnotin. rewrite E. now apply in_map.
    + now apply IH.
Qed.

Lemma select_task_key st t :
  Inv.task_ids_unique st -> In t (Db.tasks st) ->
  Db.select_task (Tasks.id t) st = [t].
Proof.
  intros Hkey Hin. unfold Db.select_task.
  now apply (filter_key Tasks.id).
Qed.

(** The users joined to a task: exactly its owner. *)
Lemma owner_of_task st t :
  Inv.owners_exist st -> Inv.user_ids_unique st -> In t (Db.tasks st) ->
  exists u,
    In u (Db.users st) /\ Users.id u = Tasks.user_id t
    /\ filter (fun u' => Tasks.user_id t =? Users.id u') (Db.users st) = [u].
Proof.
  intros Hown Hkey Hin. destruct (Hown t Hin) as [u [Hu Hid]].
  exists u. repeat split; try assumption.
  rewrite <- Hid.
  rewrite (filter_ext _ (fun x => Users.id x =? Users.id u)).
  - now apply (filter_key Users.id).
  - intros x. apply Z.eqb_sym.
Qed.

Lemma join_rows (us : list Users.row) (ts : list Tasks.row)
    (p : Tasks.row -> bool) :
  filter (fun r => p (Tasks.task r))
    (flat_map
       (fun t =>
          map (fun u => {| Tasks.task := t;
                           Tasks.username := Users.username u |})
              (filter (fun u => Tasks.user_id t =? Users.id u) us)) ts)
  = flat_map
      (fun t =>
         map (fun u => {| Tasks.task := t;
                          Tasks.username := Users.username u |})
             (filter (fun u => Tasks.user_id t =? Users.id u) us))
      (filter p ts).
Proof.
  induction ts as [|t ts IH]; simpl; [reflexivity|].
  rewrite filter_app, IH.
  destruct (p t) eqn:Hp; simpl.
  - f_equal. induction (filter _ us) as [|u l IHl]; simpl; [reflexivity|].
    rewrite Hp. now f_equal.
  - replace (filter _ (map _ _)) with (@nil Tasks.joined); [reflexivity|].
    symmetry. apply filter_none. intros r Hr.
    apply in_map_iff in Hr. destruct Hr as [u [<- _]]. exact Hp.
Qed.

(** On a consistent store the join yields the tasks, one row each, in table
    order, each with its owner's username. *)
Lemma join_tasks st :
  Inv.owners_exist st -> Inv.user_ids_unique st ->
  map Tasks.task (Db.tasks_join_users st) = Db.tasks st.
Proof.
  intros Hown Hkey. unfold Db.tasks_join_users.
  assert (H : forall ts, incl ts (Db.tasks st) ->
            map Tasks.task
              (flat_map
                 (fun t =>
                    map (fun u => {| Tasks.task := t;
                                     Tasks.username := Users.username u |})
                        (filter (fun u => Tasks.user_id t =? Users.id u)
                                (Db.users st))) ts) = ts).
  { induction ts as [|t ts IH]; simpl; intros Hincl; [reflexivity|].
    destruct (owner_of_task st t Hown Hkey) as [u [_ [_ ->]]].
    - apply Hincl. now left.
    - simpl. f_equal. apply IH. intros x Hx. apply Hincl. now right. }
  apply H. apply incl_refl.
Qed.

Lemma join_owner st r :
  In r (Db.tasks_join_users st) ->
  exists u,
    In u (Db.users st) /\ Users.id u = Tasks.user_id (Tasks.task r)
    /\ Tasks.username r = Users.username u.
Proof.
  unfold Db.tasks_join_users. intros Hin.
  apply in_flat_map in Hin. destruct Hin as [t [_ Hr]].
  apply in_map_iff in Hr. destruct Hr as [u [<- Hu]].
  apply filter_In in Hu. destruct Hu as [Hu Hid].
  apply Z.eqb_eq in Hid. exists u. simpl. auto.
Qed.

Lemma select_joined_by_id_head st id t others :
  Inv.owners_exist st ->
  Db.select_task id st = t :: others ->
  exists uname rest,
    Db.select_joined_by_id id st
    = {| Tasks.task := t; Tasks.username := uname |} :: rest.
Proof.
  intros Hown Hsel.
  unfold Db.select_joined_by_id, Db.tasks_join_users.
  rewrite (join_rows (Db.users st) (Db.tasks st)
             (fun t => Tasks.id t =? id)).
  unfold Db.select_task in Hsel. rewrite Hsel. simpl.
  assert (Hin : In t (Db.tasks st)).
  { assert (H : In t (filter (fun t0 => Tasks.id t0 =? id) (Db.tasks st)))
      by (rewrite Hsel; now left).
    apply filter_In in H. tauto. }
  destruct (Hown t Hin) as [u [Hu Hid]].
  destruct (filter_In_cons (fun u' => Tasks.user_id t =? Users.id u')
              (Db.users st) u Hu) as [x [xs ->]].
  - rewrite Hid. apply Z.eqb_refl.
  - simpl. eauto.
Qed.

(** ** Role and ownership *)

(** C1 (as amended): on a consistent store and for a task [t] in it, an
    administrator and the owner of [t] pass the gate: read-single answers
    200 with the task, delete removes it and answers 200, and an update
    whose body passes the validation chains is carried out (or answered
    400 "No fields to update" when it sets nothing).  Any other caller is
    answered 403 "Access denied" by read-single, by delete, and by every
    update whose body passes the validation chains, and the store is left
    as it was. *)
Theorem access_gate (st : Db.Store) (user : Jwt.Claims) (t : Tasks.row) :
  Inv.consistent st ->
  In t (Db.tasks st) ->
  (Jwt.role user = "admin" \/ Tasks.user_id t = Jwt.id user ->
   (exists uname,
      Handler.run (TaskRoutes.get_one user (Tasks.id t)) st
      = (st, Http.json 200
               (Http.TaskJson {| Tasks.task := t;
                                 Tasks.username := uname |})))
   /\ Handler.run (TaskRoutes.delete user (Tasks.id t)) st
      = (Db.delete_task (Tasks.id t) st,
         Http.json 200 (Http.Message "Task deleted successfully"))
   /\ forall b now,
        TaskRoutes.put_errors b = [] ->
        Handler.run (TaskRoutes.put user (Tasks.id t) b now) st
        = match TaskRoutes.put_updates b with
          | [] => (st, Http.json 400 (Http.Message "No fields to update"))
          | sets =>
              (Db.update_task sets (Tasks.id t) now st,
               Http.json 200
                 (Http.TaskResult "Task updated successfully"
                    (hd_error
                       (Db.select_task (Tasks.id t)
                          (Db.update_task sets (Tasks.id t) now st)))))
          end)
  /\ (Jwt.role user <> "admin" ->
      Tasks.user_id t <> Jwt.id user ->
      Handler.run (TaskRoutes.get_one user (Tasks.id t)) st
      = (st, Http.json 403 (Http.Message "Access denied"))
      /\ Handler.run (TaskRoutes.delete user (Tasks.id t)) st
         = (st, Http.json 403 (Http.Message "Access denied"))
      /\ forall b now,
           TaskRoutes.put_errors b = [] ->
           Handler.run (TaskRoutes.put user (Tasks.id t) b now) st
           = (st, Http.json 403 (Http.Message "Access denied"))).
Proof.
  intros Hok Hin.
  pose proof (select_task_key st t (Inv.tasks_key st Hok) Hin) as Hsel.
  destruct (select_joined_by_id_head st (Tasks.id t) t []
              (Inv.owners st Hok) Hsel) as [uname [rest Hjoin]].
  split.
  - intros Hallow. apply denied_false in Hallow. repeat split.
    + exists uname. unfold TaskRoutes.get_one. run_handler.
      rewrite Hjoin. simpl. rewrite Hallow. reflexivity.
    + unfold TaskRoutes.delete. run_handler.
      rewrite Hsel, Hallow. reflexivity.
    + intros b now Hval.
      rewrite (put_valid user (Tasks.id t) b now st t [] Hval Hsel).
      rewrite Hallow. reflexivity.
  - intros Hrole Hother.
    assert (Hdeny : TaskRoutes.denied user t = true)
      by (apply denied_true; auto).
    repeat split.
    + unfold TaskRoutes.get_one. run_handler.
      rewrite Hjoin. simpl. rewrite Hdeny. reflexivity.
    + unfold TaskRoutes.delete. run_handler.
      rewrite Hsel, Hdeny. reflexivity.
    + intros b now Hval.
      rewrite (put_valid user (Tasks.id t) b now st t [] Hval Hsel).
      rewrite Hdeny. reflexivity.
Qed.

Lemma access_gate_witness :
  ((exists uname,
      Handler.run (TaskRoutes.get_one (Sample.claims_of Sample.root) 1)
        Sample.store
      = (Sample.store,
         Http.json 200
           (Http.TaskJson {| Tasks.task := Sample.milk;
                             Tasks.username := uname |})))
   /\ Handler.run (TaskRoutes.delete (Sample.claims_of Sample.root) 1)
        Sample.store
      = (Db.delete_task 1 Sample.store,
         Http.json 200 (Http.Message "Task deleted successfully"))
   /\ Http.status
        (snd (Handler.run
                (TaskRoutes.put (Sample.claims_of Sample.root) 1
                   (Sample.only_status "completed") 500) Sample.store))
      = 200)
  /\ (Handler.run (TaskRoutes.get_one (Sample.claims_of Sample.bob) 1)
        Sample.store
      = (Sample.store, Http.json 403 (Http.Message "Access denied"))
      /\ Handler.run (TaskRoutes.delete (Sample.claims_of Sample.bob) 1)
           Sample.store
         = (Sample.store, Http.json 403 (Http.Message "Access denied"))
      /\ Handler.run
           (TaskRoutes.put (Sample.claims_of Sample.bob) 1
              (Sample.only_status "completed") 500) Sample.store
         = (Sample.store, Http.json 403 (Http.Message "Access denied"))).
Proof.
  assert (Hin : In Sample.milk (Db.tasks Sample.store)) by (simpl; auto).
  destruct (access_gate Sample.store (Sample.claims_of Sample.root)
              Sample.milk sample_store_consistent Hin) as [Hadmin _].
  destruct (access_gate Sample.store (Sample.claims_of Sample.bob)
              Sample.milk sample_store_consistent Hin) as [_ Hbob].
  split.
  - destruct Hadmin as [Hget [Hdel Hput]]; [left; reflexivity|].
    split; [exact Hget | split; [exact Hdel|]].
    pose proof (Hput (Sample.only_status "completed") 500 eq_refl) as H.
    change (Tasks.id Sample.milk) with 1 in H. rewrite H. reflexivity.
  - destruct Hbob as [Hget [Hdel Hput]];
      [simpl; discriminate | simpl; discriminate|].
    split; [exact Hget | split; [exact Hdel|]].
    exact (Hput (Sample.only_status "completed") 500 eq_refl).
Defined.

(** C1 (as stated) fails: bob, who is neither an administrator nor the
    owner of alice's task, updates it with a status outside the three
    values and is answered 400 by the validation chains, not 403. *)
Lemma foreign_update_invalid_body :
  In Sample.milk (Db.tasks Sample.store)
  /\ Jwt.role (Sample.claims_of Sample.bob) <> "admin"
  /\ Tasks.user_id Sample.milk <> Jwt.id (Sample.claims_of Sample.bob)
  /\ Handler.run
       (TaskRoutes.put (Sample.claims_of Sample.bob) (Tasks.id Sample.milk)
          (Sample.only_status "done") 500) Sample.store
     = (Sample.store,
        Http.json 400
          (Http.Errors [ {| Validator.path := "status";
                            Validator.msg := "Invalid value" |} ]))
  /\ snd (Handler.run
            (TaskRoutes.put (Sample.claims_of Sample.bob)
               (Tasks.id Sample.milk) (Sample.only_status "done") 500)
            Sample.store)
     <> Http.json 403 (Http.Message "Access denied").
Proof.
  simpl. repeat split; auto; discriminate.
Qed.

(** ** Listing *)

Lemma insert_desc_perm r l : Permutation (Db.insert_desc r l) (r :: l).
Proof.
  induction l as [|r' l IH]; simpl; [apply Permutation_refl|].
  destruct (_ <=? _).
  - apply Permutation_refl.
  - eapply Permutation_trans; [apply perm_skip, IH | apply perm_swap].
Qed.

Lemma order_by_perm l : Permutation (Db.order_by_created_at_desc l) l.
Proof.
  induction l as [|r l IH]; simpl; [constructor|].
  eapply Permutation_trans; [apply insert_desc_perm | now apply perm_skip].
Qed.

Lemma insert_desc_sorted r l :
  StronglySorted newest_first l ->
  StronglySorted newest_first (Db.insert_desc r l).
Proof.
  induction l as [|r' l IH]; simpl; intros Hs.
  - repeat constructor.
  - inversion Hs as [|x xs Hs' Hall]; subst.
    destruct (Z.leb_spec (Tasks.created_at (Tasks.task r'))
                (Tasks.created_at (Tasks.task r))) as [Hle|Hlt].
    + constructor; [exact Hs|]. constructor; [exact Hle|].
      eapply Forall_impl; [|exact Hall].
      unfold newest_first. intros a Ha. lia.
    + constructor; [now apply IH|].
      eapply Permutation_Forall.
      * apply Permutation_sym, insert_desc_perm.
      * constructor; [|exact Hall]. unfold newest_first. lia.
Qed.

Lemma order_by_sorted l :
  StronglySorted newest_first (Db.order_by_created_at_desc l).
Proof.
  induction l as [|r l IH]; simpl; [constructor|].
  now apply insert_desc_sorted.
Qed.

Lemma map_task_filter (p : Tasks.row -> bool) (rows : list Tasks.joined) :
  map Tasks.task (filter (fun r => p (Tasks.task r)) rows)
  = filter p (map Tasks.task rows).
Proof.
  induction rows as [|r rows IH]; simpl; [reflexivity|].
  destruct (p (Tasks.task r)); simpl; now rewrite IH.
Qed.

(** C2: on a consistent store, the list answer is 200 with rows that are,
    for an administrator, all the tasks, and for any other caller exactly
    the tasks whose [user_id] is the caller's id (each once, each with its
    owner's username); in both cases a row listed earlier was created no
    earlier than a row listed later. *)
Theorem list_tasks (st : Db.Store) (user : Jwt.Claims) :
  Inv.consistent st ->
  exists rows,
    Handler.run (TaskRoutes.get_all user) st
    = (st, Http.json 200 (Http.TaskList rows))
    /\ (Jwt.role user = "admin" ->
        Permutation (map Tasks.task rows) (Db.tasks st))
    /\ (Jwt.role user <> "admin" ->
        Permutation (map Tasks.task rows)
          (filter (fun t => Tasks.user_id t =? Jwt.id user) (Db.tasks st)))
    /\ StronglySorted newest_first rows
    /\ forall r, In r rows ->
         exists u,
           In u (Db.users st)
           /\ Users.id u = Tasks.user_id (Tasks.task r)
           /\ Tasks.username r = Users.username u.
Proof.
  intros Hok.
  pose proof (join_tasks st (Inv.owners st Hok) (Inv.users_key st Hok))
    as Hjoin.
  unfold TaskRoutes.get_all. run_handler.
  destruct (String.eqb_spec (Jwt.role user) "admin") as [Hadmin|Huser];
    simpl; eexists; (split; [reflexivity|]).
  - unfold Db.select_all_joined. repeat split.
    + intros _. rewrite <- Hjoin.
      apply Permutation_map, order_by_perm.
    + intros Hne. contradiction.
    + apply order_by_sorted.
    + intros r Hr. apply (join_owner st).
      eapply Permutation_in; [apply order_by_perm | exact Hr].
  - unfold Db.select_joined_by_user. repeat split.
    + intros He. contradiction.
    + intros _. rewrite <- Hjoin.
      rewrite <- (map_task_filter (fun t => Tasks.user_id t =? Jwt.id user)).
      apply Permutation_map, order_by_perm.
    + apply order_by_sorted.
    + intros r Hr. apply (join_owner st).
      assert (Hin : In r (filter
                            (fun r => Tasks.user_id (Tasks.task r)
                                      =? Jwt.id user)
                            (Db.tasks_join_users st))).
      { eapply Permutation_in; [apply order_by_perm | exact Hr]. }
      apply filter_In in Hin. tauto.
Qed.

Lemma list_tasks_witness :
  exists rows,
    Handler.run (TaskRoutes.get_all (Sample.claims_of Sample.alice))
      Sample.store
    = (Sample.store, Http.json 200 (Http.TaskList rows))
    /\ Permutation (map Tasks.task rows) [Sample.milk; Sample.bread]
    /\ StronglySorted newest_first rows
    /\ forall r, In r rows ->
         exists u,
           In u (Db.users Sample.store)
           /\ Users.id u = Tasks.user_id (Tasks.task r)
           /\ Tasks.username r = Users.username u.
Proof.
  destruct (list_tasks Sample.store (Sample.claims_of Sample.alice)
              sample_store_consistent)
    as [rows [Hrun [_ [Hown [Hsorted Hnames]]]]].
  exists rows. repeat split; try assumption.
  apply Hown. simpl. discriminate.
Defined.

Example list_as_admin :
  Handler.run (TaskRoutes.get_all (Sample.claims_of Sample.root))
    Sample.store
  = (Sample.store,
     Http.json 200
       (Http.TaskList
          [ {| Tasks.task := Sample.report; Tasks.username := "bob" |};
            {| Tasks.task := Sample.bread; Tasks.username := "alice" |};
            {| Tasks.task := Sample.milk; Tasks.username := "alice" |} ])).
Proof. reflexivity. Qed.

Example list_as_alice :
  Handler.run (TaskRoutes.get_all (Sample.claims_of Sample.alice))
    Sample.store
  = (Sample.store,
     Http.json 200
       (Http.TaskList
          [ {| Tasks.task := Sample.bread; Tasks.username := "alice" |};
            {| Tasks.task := Sample.milk; Tasks.username := "alice" |} ])).
Proof. reflexivity. Qed.

(** ** Consistency is an invariant of the API *)

Lemma NoDup_map_filter {A : Type} (key : A -> Z) (p : A -> bool)
    (l : list A) :
  NoDup (map key l) -> NoDup (map key (filter p l)).
Proof.
  induction l as [|a l IH]; simpl; intros Hnd; [constructor|].
  inversion Hnd as [|k ks Hnotin Hnd']; subst.
  destruct (p a); simpl; [|now apply IH].
  constructor; [|now apply IH].
  intros Hin. apply Hnotin.
  apply in_map_iff in Hin. destruct Hin as [x [Hk Hx]].
  apply filter_In in Hx. rewrite <- Hk. apply in_map. tauto.
Qed.

Lemma NoDup_map_snoc {A : Type} (key : A -> Z) (l : list A) (a : A) :
  NoDup (map key l) ->
  (forall x, In x l -> key x < key a) ->
  NoDup (map key (l ++ [a])).
Proof.
  intros Hnd Hlt. rewrite map_app. simpl.
  apply NoDup_app; [exact Hnd | repeat constructor; intros [] |].
  intros k Hk [<- | []].
  apply in_map_iff in Hk. destruct Hk as [x [Hk Hx]].
  specialize (Hlt x Hx). lia.
Qed.

Lemma delete_task_consistent st id :
  Inv.consistent st -> Inv.consistent (Db.delete_task id st).
Proof.
  intros [Hown Hu Ht Hfu Hft]. constructor.
  - intros t Hin. simpl in Hin. apply filter_In in Hin.
    apply Hown. tauto.
  - exact Hu.
  - unfold Inv.task_ids_unique. simpl. now apply NoDup_map_filter.
  - exact Hfu.
  - intros t Hin. simpl in Hin. apply filter_In in Hin.
    apply Hft. tauto.
Qed.

Lemma update_task_consistent st sets id now :
  Inv.consistent st -> Inv.consistent (Db.update_task sets id now st).
Proof.
  intros [Hown Hu Ht Hfu Hft].
  set (g := fun t => if Tasks.id t =? id
                     then Tasks.touch now (fold_left Tasks.assign sets t)
                     else t).
  assert (Hid : forall t, Tasks.id (g t) = Tasks.id t).
  { intros t. unfold g. destruct (Tasks.id t =? id); [|reflexivity].
    apply updated_row_id. }
  assert (Howner : forall t, Tasks.user_id (g t) = Tasks.user_id t).
  { intros t. unfold g. destruct (Tasks.id t =? id); [|reflexivity].
    simpl. apply assign_frame. }
  constructor.
  - intros t' Hin. simpl in Hin. apply in_map_iff in Hin.
    destruct Hin as [t [<- Hin]]. fold (g t). rewrite Howner.
    now apply Hown.
  - exact Hu.
  - unfold Inv.task_ids_unique. simpl. rewrite map_map.
    rewrite (map_ext _ Tasks.id); [exact Ht|]. exact Hid.
  - exact Hfu.
  - intros t' Hin. simpl in Hin. apply in_map_iff in Hin.
    destruct Hin as [t [<- Hin]]. fold (g t). rewrite Hid.
    now apply Hft.
Qed.

Lemma insert_task_consistent st title descr status uid now :
  Inv.consistent st ->
  (exists u, In u (Db.users st) /\ Users.id u = uid) ->
  Inv.consistent (fst (Db.insert_task title descr status uid now st)).
Proof.
  intros [Hown Hu Ht Hfu Hft] Huser. constructor.
  - intros t Hin. simpl in Hin. apply in_app_iff in Hin.
    destruct Hin as [Hin | [<- | []]]; [now apply Hown | exact Huser].
  - exact Hu.
  - unfold Inv.task_ids_unique. simpl.
    apply (NoDup_map_snoc Tasks.id); [exact Ht|]. exact Hft.
  - exact Hfu.
  - intros t Hin. simpl in Hin. apply in_app_iff in Hin. simpl.
    destruct Hin as [Hin | [<- | []]];
      [specialize (Hft t Hin) | simpl]; lia.
Qed.

Lemma insert_user_consistent st username email password now :
  Inv.consistent st ->
  Inv.consistent (fst (Db.insert_user username email password now st)).
Proof.
  intros [Hown Hu Ht Hfu Hft]. constructor.
  - intros t Hin. simpl in Hin. destruct (Hown t Hin) as [u [Hin' Hid]].
    exists u. split; [|exact Hid]. simpl. apply in_app_iff. now left.
  - unfold Inv.user_ids_unique. simpl.
    apply (NoDup_map_snoc Users.id); [exact Hu|]. exact Hfu.
  - exact Ht.
  - intros u Hin. simpl in Hin. apply in_app_iff in Hin. simpl.
    destruct Hin as [Hin | [<- | []]];
      [specialize (Hfu u Hin) | simpl]; lia.
  - exact Hft.
Qed.

(** Every route of the task router keeps the store consistent, given that
    the caller of a create is a stored user. *)
Lemma task_routes_consistent st user id b now :
  Inv.consistent st ->
  Inv.consistent (fst (Handler.run (TaskRoutes.get_all user) st))
  /\ Inv.consistent (fst (Handler.run (TaskRoutes.get_one user id) st))
  /\ Inv.consistent (fst (Handler.run (TaskRoutes.put user id b now) st))
  /\ Inv.consistent (fst (Handler.run (TaskRoutes.delete user id) st))
  /\ ((exists u, In u (Db.users st) /\ Users.id u = Jwt.id user) ->
      Inv.consistent (fst (Handler.run (TaskRoutes.post user b now) st))).
Proof.
  intros Hok. split; [|split; [|split; [|split]]].
  - exact Hok.
  - unfold TaskRoutes.get_one. run_handler.
    destruct (Db.select_joined_by_id id st) as [|r rows];
      [exact Hok|].
    destruct (TaskRoutes.denied user (Tasks.task r)); exact Hok.
  - unfold TaskRoutes.put. run_handler.
    destruct (TaskRoutes.put_errors b); simpl; [|exact Hok].
    destruct (Db.select_task id st) as [|t others]; [exact Hok|].
    destruct (TaskRoutes.denied user t); [exact Hok|].
    destruct (TaskRoutes.put_updates b); simpl; [exact Hok|].
    now apply update_task_consistent.
  - unfold TaskRoutes.delete. run_handler.
    destruct (Db.select_task id st) as [|t others]; [exact Hok|].
    destruct (TaskRoutes.denied user t); [exact Hok|].
    now apply delete_task_consistent.
  - intros Huser. unfold TaskRoutes.post. run_handler.
    destruct (TaskRoutes.post_errors b); simpl; [|exact Hok].
    now apply insert_task_consistent.
Qed.

(** So does every route of the authentication router; a registered user is
    a stored user from then on. *)
Lemma auth_routes_consistent env st rb lb salt now :
  Inv.consistent st ->
  Inv.consistent (fst (Handler.run (AuthRoutes.register env rb salt now) st))
  /\ Inv.consistent (fst (Handler.run (AuthRoutes.login env lb) st)).
Proof.
  intros Hok. split.
  - unfold AuthRoutes.register. run_handler.
    destruct (AuthRoutes.register_errors env rb); simpl; [|exact Hok].
    destruct (Db.select_user_by_email_or_username _ _ _ st);
      simpl; [|exact Hok].
    now apply insert_user_consistent.
  - unfold AuthRoutes.login. run_handler.
    destruct (AuthRoutes.login_errors env lb); simpl; [|exact Hok].
    destruct (Db.select_user_by_email _ _ st) as [|u others];
      [exact Hok|].
    destruct (AuthRoutes.bcrypt_compare env _ _); exact Hok.
Qed.

(** ** A session against the empty database *)

Example session :
  let alice_form :=
    {| AuthRoutes.username := Js.Str "alice";
       AuthRoutes.email := Js.Str "alice@x.com";
       AuthRoutes.password := Js.Str "secret1" |} in
  let bob_form :=
    {| AuthRoutes.username := Js.Str "bob";
       AuthRoutes.email := Js.Str "bob@x.com";
       AuthRoutes.password := Js.Str "hunter22" |} in
  let alice := {| Jwt.id := 1; Jwt.username := "alice";
                  Jwt.role := "user" |} in
  let bob := {| Jwt.id := 2; Jwt.username := "bob"; Jwt.role := "user" |} in
  let admin := {| Jwt.id := 7; Jwt.username := "root";
                  Jwt.role := "admin" |} in
  let milk :=
    {| Tasks.id := 1; Tasks.title := "buy milk"; Tasks.description := None;
       Tasks.status := "pending"; Tasks.user_id := 1;
       Tasks.created_at := 120; Tasks.updated_at := 120 |} in
  let (st1, registered) :=
    Handler.run (AuthRoutes.register Sample.env alice_form "sa" 100)
      Db.empty in
  let (st2, logged_in) :=
    Handler.run
      (AuthRoutes.login Sample.env
         {| AuthRoutes.login_email := Js.Str "alice@x.com";
            AuthRoutes.login_password := Js.Str "secret1" |}) st1 in
  let (st3, _) :=
    Handler.run (AuthRoutes.register Sample.env bob_form "sb" 110) st2 in
  let (st4, created) :=
    Handler.run (TaskRoutes.post alice (Sample.only_title "buy milk") 120)
      st3 in
  let (st5, bob_reads) := Handler.run (TaskRoutes.get_one bob 1) st4 in
  let (st6, admin_reads) := Handler.run (TaskRoutes.get_one admin 1) st5 in
  registered
  = Http.json 201
      (Http.AuthResult "User registered successfully"
         (Jwt.sign alice "s3cret" "24h")
         {| Http.id := 1; Http.username := "alice";
            Http.email := "alice@x.com"; Http.role := "user" |})
  /\ logged_in
     = Http.json 200
         (Http.AuthResult "Login successful"
            (Jwt.sign alice "s3cret" "24h")
            {| Http.id := 1; Http.username := "alice";
               Http.email := "alice@x.com"; Http.role := "user" |})
  /\ created
     = Http.json 201
         (Http.TaskResult "Task created successfully" (Some milk))
  /\ bob_reads = Http.json 403 (Http.Message "Access denied")
  /\ admin_reads
     = Http.json 200
         (Http.TaskJson {| Tasks.task := milk; Tasks.username := "alice" |})
  /\ Inv.consistent st6.
Proof.
  vm_compute. repeat split; try (intros ? ?; lia).
  - intros t [<- | []]. eexists. split; [left; reflexivity | reflexivity].
  - repeat constructor; simpl; intuition discriminate.
  - repeat constructor; simpl; intuition discriminate.
  - intros u [<- | [<- | []]]; reflexivity.
  - intros t [<- | []]; reflexivity.
Qed.

(** * Further properties of the routers *)

(** ** Login and registration *)

Lemma filter_nil_all {A : Type} (f : A -> bool) (l : list A) :
  filter f l = [] -> forall x, In x l -> f x = false.
Proof.
  intros Hnil x Hin. destruct (f x) eqn:E; [|reflexivity].
  assert (H : In x (filter f l)) by (apply filter_In; auto).
  rewrite Hnil in H. destruct H.
Qed.

Lemma login_found env b st u others :
  AuthRoutes.login_errors env b = [] ->
  Db.select_user_by_email (AuthRoutes.collate env)
    (Validator.toString (AuthRoutes.login_email b)) st = u :: others ->
  Handler.run (AuthRoutes.login env b) st
  = if AuthRoutes.bcrypt_compare env
         (Validator.toString (AuthRoutes.login_password b))
         (Users.password u)
    then (st,
          Http.json 200
            (Http.AuthResult "Login successful"
               (Jwt.sign {| Jwt.id := Users.id u;
                            Jwt.username := Users.username u;
                            Jwt.role := Users.role u |}
                         (AuthRoutes.JWT_SECRET env) "24h")
               {| Http.id := Users.id u;
                  Http.username := Users.username u;
                  Http.email := Users.email u;
                  Http.role := Users.role u |}))
    else (st, Http.json 401 (Http.Message "Invalid credentials")).
Proof.
  intros Hval Hsel. unfold AuthRoutes.login. rewrite Hval.
  run_handler. simpl. rewrite Hsel.
  destruct (AuthRoutes.bcrypt_compare env _ _); reflexivity.
Qed.

Lemma login_not_found env b st :
  AuthRoutes.login_errors env b = [] ->
  Db.select_user_by_email (AuthRoutes.collate env)
    (Validator.toString (AuthRoutes.login_email b)) st = [] ->
  Handler.run (AuthRoutes.login env b) st
  = (st, Http.json 401 (Http.Message "Invalid credentials")).
Proof.
  intros Hval Hsel. unfold AuthRoutes.login. rewrite Hval.
  run_handler. simpl. rewrite Hsel. reflexivity.
Qed.

(** X1: login answers 200 exactly when the request passes the validation
    chains and the password matches the hash of the first stored user with
    that email; the answer then carries that user's id, username, email and
    role, the payload of the token holds the same id, username and role,
    the token is signed with the server's secret for 24 hours, and the
    store is left as it was. *)
Theorem login_success (env : AuthRoutes.Env) (b : AuthRoutes.LoginBody)
    (st : Db.Store) :
  (forall st' r,
     Handler.run (AuthRoutes.login env b) st = (st', r) ->
     Http.status r = 200 ->
     st' = st
     /\ AuthRoutes.login_errors env b = []
     /\ exists u others,
          Db.select_user_by_email (AuthRoutes.collate env)
            (Validator.toString (AuthRoutes.login_email b)) st = u :: others
          /\ AuthRoutes.bcrypt_compare env
               (Validator.toString (AuthRoutes.login_password b))
               (Users.password u) = true)
  /\ (forall u others,
        AuthRoutes.login_errors env b = [] ->
        Db.select_user_by_email (AuthRoutes.collate env)
          (Validator.toString (AuthRoutes.login_email b)) st = u :: others ->
        AuthRoutes.bcrypt_compare env
          (Validator.toString (AuthRoutes.login_password b))
          (Users.password u) = true ->
        exists token user,
          Handler.run (AuthRoutes.login env b) st
          = (st, Http.json 200 (Http.AuthResult "Login successful" token user))
          /\ Jwt.id (Jwt.payload token) = Users.id u
          /\ Jwt.username (Jwt.payload token) = Users.username u
          /\ Jwt.role (Jwt.payload token) = Users.role u
          /\ Jwt.secret token = AuthRoutes.JWT_SECRET env
          /\ Jwt.expiresIn token = "24h"
          /\ Http.id user = Users.id u
          /\ Http.username user = Users.username u
          /\ Http.email user = Users.email u
          /\ Http.role user = Users.role u).
Proof.
  split.
  - intros st' r Hrun Hstatus.
    destruct (AuthRoutes.login_errors env b) as [|e errs] eqn:Herr.
    2:{ rewrite login_invalid in Hrun by congruence.
        injection Hrun as <- <-. discriminate. }
    destruct (Db.select_user_by_email (AuthRoutes.collate env)
                (Validator.toString (AuthRoutes.login_email b)) st)
      as [|u others] eqn:Hsel.
    { rewrite (login_not_found env b st Herr Hsel) in Hrun.
      injection Hrun as <- <-. discriminate. }
    rewrite (login_found env b st u others Herr Hsel) in Hrun.
    destruct (AuthRoutes.bcrypt_compare env _ _) eqn:Hcmp.
    + injection Hrun as <- <-.
      split; [reflexivity | split; [reflexivity|]].
      exists u, others. auto.
    + injection Hrun as <- <-. discriminate.
  - intros u others Hval Hsel Hcmp.
    rewrite (login_found env b st u others Hval Hsel), Hcmp.
    eexists. eexists. split; [reflexivity|].
    split; [reflexivity|].
    split; [reflexivity|].
    split; [reflexivity|].
    split; [reflexivity|].
    split; [reflexivity|].
    split; [reflexivity|].
    split; [reflexivity|].
    split; reflexivity.
Qed.

Lemma login_success_witness :
  let b := {| AuthRoutes.login_email := Js.Str "root@x.com";
              AuthRoutes.login_password := Js.Str "toor-toor" |} in
  let out := Handler.run (AuthRoutes.login Sample.env b) Sample.store in
  (fst out = Sample.store
   /\ AuthRoutes.login_errors Sample.env b = []
   /\ exists u others,
        Db.select_user_by_email (AuthRoutes.collate Sample.env)
          (Validator.toString (AuthRoutes.login_email b)) Sample.store
        = u :: others
        /\ AuthRoutes.bcrypt_compare Sample.env
             (Validator.toString (AuthRoutes.login_password b))
             (Users.password u) = true)
  /\ exists token user,
       out = (Sample.store,
              Http.json 200 (Http.AuthResult "Login successful" token user))
       /\ Jwt.id (Jwt.payload token) = 3
       /\ Jwt.username (Jwt.payload token) = "root"
       /\ Jwt.role (Jwt.payload token) = "admin"
       /\ Jwt.secret token = "s3cret"
       /\ Jwt.expiresIn token = "24h"
       /\ Http.id user = 3
       /\ Http.username user = "root"
       /\ Http.email user = "root@x.com"
       /\ Http.role user = "admin".
Proof.
  intros b out.
  destruct (login_success Sample.env b Sample.store) as [Honly Hif].
  split.
  - apply (Honly (fst out) (snd out)); reflexivity.
  - apply (Hif Sample.root []); reflexivity.
Defined.

(** X2: a registration answered 201 can be followed by a login with the
    same email and password: provided the password compares equal to its
    own hash and the collation relates every string to itself, the login
    answers 200 with the user object of the registration and a token signed
    over the same payload, with the same secret and lifetime. *)
Theorem register_then_login (env : AuthRoutes.Env) (st st' : Db.Store)
    (b : AuthRoutes.RegisterBody) (salt : string) (now : Z)
    (token : Jwt.Token) (user : Http.PublicUser) :
  (forall s, AuthRoutes.collate env s s = true) ->
  AuthRoutes.bcrypt_compare env (Validator.toString (AuthRoutes.password b))
    (AuthRoutes.bcrypt_hash env
       (Validator.toString (AuthRoutes.password b)) salt) = true ->
  Handler.run (AuthRoutes.register env b salt now) st
  = (st', Http.json 201
            (Http.AuthResult "User registered successfully" token user)) ->
  Handler.run
    (AuthRoutes.login env
       {| AuthRoutes.login_email := AuthRoutes.email b;
          AuthRoutes.login_password := AuthRoutes.password b |}) st'
  = (st', Http.json 200 (Http.AuthResult "Login successful" token user)).
Proof.
  intros Hrefl Hbcrypt Hrun.
  destruct (AuthRoutes.register_errors env b) as [|e errs] eqn:Herr.
  2:{ rewrite register_invalid in Hrun by congruence. discriminate. }
  destruct (Db.select_user_by_email_or_username (AuthRoutes.collate env)
              (Validator.toString (AuthRoutes.email b))
              (Validator.toString (AuthRoutes.username b)) st)
    as [|x rest] eqn:Hsel.
  2:{ rewrite (register_existing env b salt now st x rest Herr Hsel) in Hrun.
      discriminate. }
  rewrite (register_fresh env b salt now st Herr Hsel) in Hrun.
  injection Hrun as <- <- <-.
  set (lb := {| AuthRoutes.login_email := AuthRoutes.email b;
                AuthRoutes.login_password := AuthRoutes.password b |}).
  apply register_errors_nil in Herr. destruct Herr as [_ [Hemail Hlen]].
  assert (Hval : AuthRoutes.login_errors env lb = []).
  { apply login_errors_nil. split; [exact Hemail|]. simpl.
    unfold Validator.isLength_min in Hlen. unfold Validator.notEmpty.
    destruct (String.length (Validator.toString (AuthRoutes.password b)));
      [discriminate | reflexivity]. }
  rewrite (login_found env lb _
             {| Users.id := Db.users_auto_increment st;
                Users.username := Validator.toString (AuthRoutes.username b);
                Users.email := Validator.toString (AuthRoutes.email b);
                Users.password :=
                  AuthRoutes.bcrypt_hash env
                    (Validator.toString (AuthRoutes.password b)) salt;
                Users.role := Users.role_default;
                Users.created_at := now |} [] Hval).
  - simpl. rewrite Hbcrypt. reflexivity.
  - unfold Db.select_user_by_email. simpl. rewrite filter_app. simpl.
    rewrite Hrefl.
    replace (filter _ (Db.users st)) with (@nil Users.row); [reflexivity|].
    symmetry. apply filter_none. intros u Hu.
    pose proof (filter_nil_all _ _ Hsel u Hu) as Hno. simpl in Hno.
    apply orb_false_iff in Hno. tauto.
Qed.

Lemma register_then_login_witness :
  let b := {| AuthRoutes.username := Js.Str "carol";
              AuthRoutes.email := Js.Str "carol@x.com";
              AuthRoutes.password := Js.Str "secret3" |} in
  let st' := fst (Handler.run (AuthRoutes.register Sample.env b "sc" 500)
                    Sample.store) in
  Handler.run
    (AuthRoutes.login Sample.env
       {| AuthRoutes.login_email := Js.Str "carol@x.com";
          AuthRoutes.login_password := Js.Str "secret3" |}) st'
  = (st',
     Http.json 200
       (Http.AuthResult "Login successful"
          (Jwt.sign {| Jwt.id := 4; Jwt.username := "carol";
                       Jwt.role := "user" |} "s3cret" "24h")
          {| Http.id := 4; Http.username := "carol";
             Http.email := "carol@x.com"; Http.role := "user" |})).
Proof.
  intros b st'.
  apply (register_then_login Sample.env Sample.store st' b "sc" 500).
  - intros s. apply String.eqb_refl.
  - reflexivity.
  - reflexivity.
Defined.



(** ** What a request can change *)

Lemma put_cases user id b now st :
  (exists r0,
     Handler.run (TaskRoutes.put user id b now) st = (st, r0)
     /\ Http.status r0 <> 200)
  \/ exists t others a sets,
       TaskRoutes.put_errors b = []
       /\ Db.select_task id st = t :: others
       /\ TaskRoutes.denied user t = false
       /\ TaskRoutes.put_updates b = a :: sets
       /\ Handler.run (TaskRoutes.put user id b now) st
          = (Db.update_task (a :: sets) id now st,
             Http.json 200
               (Http.TaskResult "Task updated successfully"
                  (hd_error
                     (Db.select_task id
                        (Db.update_task (a :: sets) id now st))))).
Proof.
  destruct (TaskRoutes.put_errors b) as [|e errs] eqn:Herr.
  2:{ left. rewrite put_invalid by congruence.
      eexists. split; [reflexivity | discriminate]. }
  destruct (Db.select_task id st) as [|t others] eqn:Hsel.
  { left. unfold TaskRoutes.put. rewrite Herr. run_handler. simpl.
    rewrite Hsel. eexists. split; [reflexivity | discriminate]. }
  rewrite (put_valid user id b now st t others Herr Hsel).
  destruct (TaskRoutes.denied user t) eqn:Hden.
  { left. eexists. split; [reflexivity | discriminate]. }
  destruct (TaskRoutes.put_updates b) as [|a sets] eqn:Hupd.
  { left. eexists. split; [reflexivity | discriminate]. }
  right. exists t, others, a, sets. auto.
Qed.

Lemma delete_cases user id st :
  (exists r0,
     Handler.run (TaskRoutes.delete user id) st = (st, r0)
     /\ Http.status r0 <> 200)
  \/ exists t others,
       Db.select_task id st = t :: others
       /\ TaskRoutes.denied user t = false
       /\ Handler.run (TaskRoutes.delete user id) st
          = (Db.delete_task id st,
             Http.json 200 (Http.Message "Task deleted successfully")).
Proof.
  unfold TaskRoutes.delete. run_handler.
  destruct (Db.select_task id st) as [|t others] eqn:Hsel.
  { left. eexists. split; [reflexivity | discriminate]. }
  destruct (TaskRoutes.denied user t) eqn:Hden.
  { left. eexists. split; [reflexivity | discriminate]. }
  right. exists t, others. auto.
Qed.

Lemma post_cases user b now st :
  Handler.run (TaskRoutes.post user b now) st
  = (st, Http.json 400 (Http.Errors (TaskRoutes.post_errors b)))
    /\ TaskRoutes.post_errors b <> []
  \/ TaskRoutes.post_errors b = []
     /\ Handler.run (TaskRoutes.post user b now) st
        = (fst (Db.insert_task (Validator.toString (TaskRoutes.title b))
                  (Db.param (TaskRoutes.description b))
                  (Validator.toString
                     (Js.default "pending" (TaskRoutes.status b)))
                  (Jwt.id user) now st),
           Http.json 201
             (Http.TaskResult "Task created successfully"
                (hd_error
                   (Db.select_task (Db.tasks_auto_increment st)
                      (fst (Db.insert_task
                              (Validator.toString (TaskRoutes.title b))
                              (Db.param (TaskRoutes.description b))
                              (Validator.toString
                                 (Js.default "pending" (TaskRoutes.status b)))
                              (Jwt.id user) now st)))))).
Proof.
  destruct (TaskRoutes.post_errors b) as [|e errs] eqn:Herr.
  - right. split; [reflexivity|].
    unfold TaskRoutes.post. rewrite Herr. reflexivity.
  - left. split; [|discriminate].
    unfold TaskRoutes.post. rewrite Herr. reflexivity.
Qed.

Lemma get_one_store user id st :
  fst (Handler.run (TaskRoutes.get_one user id) st) = st.
Proof.
  unfold TaskRoutes.get_one. run_handler.
  destruct (Db.select_joined_by_id id st) as [|r rows]; [reflexivity|].
  destruct (TaskRoutes.denied user (Tasks.task r)); reflexivity.
Qed.

Lemma login_store env b st :
  fst (Handler.run (AuthRoutes.login env b) st) = st.
Proof.
  unfold AuthRoutes.login. run_handler.
  destruct (AuthRoutes.login_errors env b); simpl; [|reflexivity].
  destruct (Db.select_user_by_email _ _ st) as [|u others]; [reflexivity|].
  destruct (AuthRoutes.bcrypt_compare env _ _); reflexivity.
Qed.

Lemma register_cases env b salt now st :
  Handler.run (AuthRoutes.register env b salt now) st
  = (st, snd (Handler.run (AuthRoutes.register env b salt now) st))
    /\ Http.status (snd (Handler.run (AuthRoutes.register env b salt now) st))
       = 400
  \/ AuthRoutes.register_errors env b = []
     /\ Db.select_user_by_email_or_username (AuthRoutes.collate env)
          (Validator.toString (AuthRoutes.email b))
          (Validator.toString (AuthRoutes.username b)) st = []
     /\ fst (Handler.run (AuthRoutes.register env b salt now) st)
        = fst (Db.insert_user
                 (Validator.toString (AuthRoutes.username b))
                 (Validator.toString (AuthRoutes.email b))
                 (AuthRoutes.bcrypt_hash env
                    (Validator.toString (AuthRoutes.password b)) salt)
                 now st)
     /\ Http.status
          (snd (Handler.run (AuthRoutes.register env b salt now) st)) = 201.
Proof.
  destruct (AuthRoutes.register_errors env b) as [|e errs] eqn:Herr.
  2:{ left. rewrite register_invalid by congruence. auto. }
  destruct (Db.select_user_by_email_or_username (AuthRoutes.collate env)
              (Validator.toString (AuthRoutes.email b))
              (Validator.toString (AuthRoutes.username b)) st)
    as [|x rest] eqn:Hsel.
  - right. rewrite (register_fresh env b salt now st Herr Hsel). auto.
  - left. rewrite (register_existing env b salt now st x rest Herr Hsel).
    auto.
Qed.

(** X4: a request that is answered 400, 401, 403 or 404 leaves the
    database exactly as it was, whichever route it went to: each of these
    answers is sent before the first write of its route. *)
Theorem failed_request_changes_nothing (env : AuthRoutes.Env) (now : Z)
    (req : ApiRequest) (st st' : Db.Store) (r : Http.Response) :
  Handler.run (serve env now req) st = (st', r) ->
  400 <= Http.status r < 500 ->
  st' = st.
Proof.
  intros Hrun Hclient.
  assert (H200 : Http.status r <> 200) by lia.
  assert (H201 : Http.status r <> 201) by lia.
  clear Hclient. destruct req; simpl in Hrun.
  - destruct (register_cases env b salt now st) as [[H _] | [_ [_ [_ H]]]].
    + rewrite H in Hrun. now injection Hrun as <- _.
    + rewrite Hrun in H. contradiction.
  - pose proof (login_store env b st) as H. rewrite Hrun in H.
    exact H.
  - unfold TaskRoutes.get_all in Hrun. revert Hrun. run_handler.
    intros Hrun. now injection Hrun as <- _.
  - pose proof (get_one_store user id st) as H. rewrite Hrun in H.
    exact H.
  - destruct (post_cases user b now st) as [[H _] | [_ H]];
      rewrite H in Hrun; injection Hrun as <- <-;
      [reflexivity | contradiction].
  - destruct (put_cases user id b now st)
      as [[r0 [H _]] | [t [others [a [sets [_ [_ [_ [_ H]]]]]]]]];
      rewrite H in Hrun; injection Hrun as <- <-;
      [reflexivity | contradiction].
  - destruct (delete_cases user id st)
      as [[r0 [H _]] | [t [others [_ [_ H]]]]];
      rewrite H in Hrun; injection Hrun as <- <-;
      [reflexivity | contradiction].
Qed.

Lemma failed_request_changes_nothing_witness :
  fst (Handler.run
         (serve Sample.env 500
            (DeleteTask (Sample.claims_of Sample.bob) 1)) Sample.store)
  = Sample.store.
Proof.
  apply (failed_request_changes_nothing Sample.env 500
           (DeleteTask (Sample.claims_of Sample.bob) 1) Sample.store _
           (Http.json 403 (Http.Message "Access denied")));
    [reflexivity | simpl; lia].
Defined.

(** ** Invariants of the tables *)

Lemma ForallOrdPairs_snoc {A : Type} (R : A -> A -> Prop) (l : list A)
    (a : A) :
  ForallOrdPairs R l -> Forall (fun x => R x a) l ->
  ForallOrdPairs R (l ++ [a]).
Proof.
  induction 1 as [|x l Hx Hl IH]; simpl; intros Hall.
  - repeat constructor.
  - inversion Hall as [|y ys Hxa Hall']; subst.
    constructor; [|now apply IH].
    apply Forall_app. split; [exact Hx | now constructor].
Qed.

(** No route but the registration writes to the users table. *)
Lemma users_unchanged env now req st :
  (forall b salt, req <> Register b salt) ->
  Db.users (fst (Handler.run (serve env now req) st)) = Db.users st.
Proof.
  intros Hreq. destruct req; simpl.
  - exfalso. now apply (Hreq b salt).
  - now rewrite login_store.
  - reflexivity.
  - now rewrite get_one_store.
  - destruct (post_cases user b now st) as [[H _] | [_ H]];
      rewrite H; reflexivity.
  - destruct (put_cases user id b now st)
      as [[r0 [H _]] | [t [others [a [sets [_ [_ [_ [_ H]]]]]]]]];
      rewrite H; reflexivity.
  - destruct (delete_cases user id st)
      as [[r0 [H _]] | [t [others [_ [_ H]]]]];
      rewrite H; reflexivity.
Qed.

(** X5: the API never stores two users with the same email or the same
    username (as compared by the collation of the table): if no two stored
    users agree on either, the same holds after any request. *)
Theorem users_stay_distinct (env : AuthRoutes.Env) (now : Z)
    (req : ApiRequest) (st : Db.Store) :
  users_distinct (AuthRoutes.collate env) st ->
  users_distinct (AuthRoutes.collate env)
    (fst (Handler.run (serve env now req) st)).
Proof.
  intros Hd. unfold users_distinct in *.
  destruct req as [b salt| | | | | |];
    try (rewrite users_unchanged; [exact Hd | discriminate]).
  simpl.
  destruct (register_cases env b salt now st)
    as [[H _] | [_ [Hsel [H _]]]]; rewrite H; [exact Hd|].
  simpl. apply ForallOrdPairs_snoc; [exact Hd|].
  apply Forall_forall. intros u Hu. simpl.
  pose proof (filter_nil_all _ _ Hsel u Hu) as Hno. simpl in Hno.
  apply orb_false_iff in Hno. exact Hno.
Qed.

Lemma users_stay_distinct_witness :
  users_distinct String.eqb
    (fst (Handler.run
            (serve Sample.env 500
               (Register {| AuthRoutes.username := Js.Str "carol";
                            AuthRoutes.email := Js.Str "carol@x.com";
                            AuthRoutes.password := Js.Str "secret3" |}
                  "sc")) Sample.store)).
Proof.
  apply (users_stay_distinct Sample.env).
  unfold users_distinct. simpl.
  repeat constructor.
Defined.

(** X6: the API keeps the tables consistent: if ids are unique and below
    the counters and every task's owner is a stored user, the same holds
    after any request, given that a create is made by a stored user. *)
Theorem requests_keep_consistency (env : AuthRoutes.Env) (now : Z)
    (req : ApiRequest) (st : Db.Store) :
  Inv.consistent st ->
  (forall user b, req = CreateTask user b ->
     exists u, In u (Db.users st) /\ Users.id u = Jwt.id user) ->
  Inv.consistent (fst (Handler.run (serve env now req) st)).
Proof.
  intros Hok Hcaller. destruct req; simpl.
  - apply (auth_routes_consistent env st b
             {| AuthRoutes.login_email := Js.Undefined;
                AuthRoutes.login_password := Js.Undefined |} salt now Hok).
  - apply (auth_routes_consistent env st
             {| AuthRoutes.username := Js.Undefined;
                AuthRoutes.email := Js.Undefined;
                AuthRoutes.password := Js.Undefined |} b "" now Hok).
  - exact Hok.
  - apply (task_routes_consistent st user id Sample.no_fields now Hok).
  - apply (task_routes_consistent st user 0 b now Hok).
    now apply (Hcaller user b).
  - apply (task_routes_consistent st user id b now Hok).
  - apply (task_routes_consistent st user id Sample.no_fields now Hok).
Qed.

Lemma requests_keep_consistency_witness :
  Inv.consistent
    (fst (Handler.run
            (serve Sample.env 500
               (CreateTask (Sample.claims_of Sample.bob)
                  (Sample.only_title "call mum"))) Sample.store)).
Proof.
  apply (requests_keep_consistency Sample.env 500
           (CreateTask (Sample.claims_of Sample.bob)
              (Sample.only_title "call mum")) Sample.store
           sample_store_consistent).
  intros user b Hreq. injection Hreq as <- _.
  exists Sample.bob. split; [simpl; auto | reflexivity].
Defined.

Lemma put_updates_valid b now t :
  TaskRoutes.put_errors b = [] ->
  task_valid t ->
  task_valid
    (Tasks.touch now (fold_left Tasks.assign (TaskRoutes.put_updates b) t)).
Proof.
  intros Hval [Htitle Hstatus]. apply put_errors_nil in Hval.
  destruct Hval as [Ht Hs]. unfold TaskRoutes.put_updates, task_valid.
  destruct b as [title descr status]. simpl in *.
  assert (Htitle' : forall s, title = Js.Str s -> s <> "").
  { intros s ->. simpl in Ht. intros ->. discriminate. }
  assert (Hstatus' : forall s, status = Js.Str s ->
                               In s TaskRoutes.statuses).
  { intros s ->. unfold Validator.optional in Hs.
    now apply isIn_spec in Hs. }
  destruct title as [| |ts]; destruct descr as [| |ds];
    destruct status as [| |ss]; simpl in *; try discriminate;
    repeat match goal with
           | |- context [if ?c then _ else _] => destruct c eqn:?
           end; simpl; auto.
Qed.

(** X7: the API never stores a task with an empty title or with a status
    outside pending / in-progress / completed: if every stored task has a
    title and one of the three statuses, the same holds after any
    request. *)
Theorem tasks_stay_valid (env : AuthRoutes.Env) (now : Z)
    (req : ApiRequest) (st : Db.Store) :
  tasks_valid st ->
  tasks_valid (fst (Handler.run (serve env now req) st)).
Proof.
  intros Hv. destruct req; simpl.
  - destruct (register_cases env b salt now st)
      as [[H _] | [_ [_ [H _]]]]; rewrite H; exact Hv.
  - now rewrite login_store.
  - exact Hv.
  - now rewrite get_one_store.
  - destruct (post_cases user b now st) as [[H _] | [Hval H]];
      rewrite H; [exact Hv|].
    apply post_errors_nil in Hval. destruct Hval as [Ht Hs].
    intros t Hin. simpl in Hin. apply in_app_iff in Hin.
    destruct Hin as [Hin | [<- | []]]; [now apply Hv|].
    split; simpl.
    + intros E. apply notEmpty_false in E. congruence.
    + destruct (TaskRoutes.status b) as [| |s].
      * simpl. now left.
      * discriminate.
      * unfold Validator.optional in Hs. now apply isIn_spec in Hs.
  - destruct (put_cases user id b now st)
      as [[r0 [H _]] | [t [others [a [sets [Hval [_ [_ [Hupd H]]]]]]]]];
      rewrite H; [exact Hv|].
    rewrite <- Hupd. intros t' Hin.
    unfold Db.update_task in Hin. cbn [fst Db.tasks] in Hin.
    apply in_map_iff in Hin. destruct Hin as [t0 [<- Hin]].
    destruct (Tasks.id t0 =? id); [|now apply Hv].
    apply put_updates_valid; [exact Hval | now apply Hv].
  - destruct (delete_cases user id st)
      as [[r0 [H _]] | [t [others [_ [_ H]]]]];
      rewrite H; [exact Hv|].
    intros t' Hin. simpl in Hin. apply filter_In in Hin. apply Hv. tauto.
Qed.

Lemma sample_tasks_valid : tasks_valid Sample.store.
Proof.
  intros t Ht. simpl in Ht.
  destruct Ht as [<- | [<- | [<- | []]]]; split; simpl;
    try discriminate; auto.
Qed.

Lemma tasks_stay_valid_witness :
  tasks_valid
    (fst (Handler.run
            (serve Sample.env 500
               (UpdateTask (Sample.claims_of Sample.alice) 1
                  (Sample.only_status "completed"))) Sample.store)).
Proof.
  apply (tasks_stay_valid Sample.env 500
           (UpdateTask (Sample.claims_of Sample.alice) 1
              (Sample.only_status "completed")) Sample.store
           sample_tasks_valid).
Defined.

(** ** Tasks of other users *)

Lemma gate_owner user t :
  Jwt.role user <> "admin" ->
  TaskRoutes.denied user t = false ->
  Tasks.user_id t = Jwt.id user.
Proof.
  intros Hrole Hden. apply denied_false in Hden.
  destruct Hden as [Hadmin | Howner]; [contradiction | exact Howner].
Qed.

Lemma other_id st id t t0 others :
  Inv.task_ids_unique st ->
  In t (Db.tasks st) ->
  Db.select_task id st = t0 :: others ->
  Tasks.user_id t <> Tasks.user_id t0 ->
  (Tasks.id t =? id) = false.
Proof.
  intros Hkey Hin Hsel Hdiff. apply Z.eqb_neq. intros <-.
  rewrite (select_task_key st t Hkey Hin) in Hsel.
  injection Hsel as <- _. now apply Hdiff.
Qed.

(** X8: whatever a caller who is not an administrator requests, every task
    owned by somebody else is still in the store afterwards, unchanged (on
    a store whose ids are unique). *)
Theorem foreign_tasks_untouched (env : AuthRoutes.Env) (now : Z)
    (req : ApiRequest) (st : Db.Store) (user : Jwt.Claims) (t : Tasks.row) :
  Inv.consistent st ->
  caller req = Some user ->
  Jwt.role user <> "admin" ->
  In t (Db.tasks st) ->
  Tasks.user_id t <> Jwt.id user ->
  In t (Db.tasks (fst (Handler.run (serve env now req) st))).
Proof.
  intros Hok Hcaller Hrole Hin Hforeign.
  destruct req as [| |u|u id|u b|u id b|u id]; simpl in Hcaller;
    try discriminate; injection Hcaller as ->; simpl.
  - exact Hin.
  - now rewrite get_one_store.
  - destruct (post_cases user b now st) as [[H _] | [_ H]];
      rewrite H; [exact Hin|].
    simpl. apply in_app_iff. now left.
  - destruct (put_cases user id b now st)
      as [[r0 [H _]] | [t0 [others [a [sets [_ [Hsel [Hden [_ H]]]]]]]]];
      rewrite H; [exact Hin|].
    simpl. apply in_map_iff. exists t. split; [|exact Hin].
    rewrite (other_id st id t t0 others (Inv.tasks_key st Hok) Hin Hsel);
      [reflexivity|].
    rewrite (gate_owner user t0 Hrole Hden). exact Hforeign.
  - destruct (delete_cases user id st)
      as [[r0 [H _]] | [t0 [others [Hsel [Hden H]]]]];
      rewrite H; [exact Hin|].
    simpl. apply filter_In. split; [exact Hin|].
    rewrite (other_id st id t t0 others (Inv.tasks_key st Hok) Hin Hsel);
      [reflexivity|].
    rewrite (gate_owner user t0 Hrole Hden). exact Hforeign.
Qed.

Lemma foreign_tasks_untouched_witness :
  In Sample.milk
    (Db.tasks
       (fst (Handler.run
               (serve Sample.env 500
                  (UpdateTask (Sample.claims_of Sample.bob) 2
                     (Sample.only_status "completed"))) Sample.store))).
Proof.
  apply (foreign_tasks_untouched Sample.env 500
           (UpdateTask (Sample.claims_of Sample.bob) 2
              (Sample.only_status "completed")) Sample.store
           (Sample.claims_of Sample.bob) Sample.milk
           sample_store_consistent).
  - reflexivity.
  - simpl. discriminate.
  - simpl. auto.
  - simpl. discriminate.
Defined.

(** ** Round trips *)

Lemma select_joined_absent st id :
  Db.select_task id st = [] -> Db.select_joined_by_id id st = [].
Proof.
  intros Hsel. unfold Db.select_joined_by_id, Db.tasks_join_users.
  rewrite (join_rows (Db.users st) (Db.tasks st)
             (fun t => Tasks.id t =? id)).
  unfold Db.select_task in Hsel. rewrite Hsel. reflexivity.
Qed.

Lemma select_task_deleted st id :
  Db.select_task id (Db.delete_task id st) = [].
Proof.
  unfold Db.select_task, Db.delete_task. simpl.
  apply filter_none. intros t Ht. apply filter_In in Ht.
  destruct Ht as [_ Hne]. now destruct (Tasks.id t =? id).
Qed.

(** X9: once a delete has been answered 200, the id is gone for every
    caller: read-single and delete answer 404 "Task not found", and so
    does every update whose body passes the validation chains; the tasks
    under other ids and the users are as before. *)
Theorem deleted_task_is_gone (st st' : Db.Store) (user : Jwt.Claims)
    (id : Z) (r : Http.Response) :
  Handler.run (TaskRoutes.delete user id) st = (st', r) ->
  Http.status r = 200 ->
  (forall other,
     Handler.run (TaskRoutes.get_one other id) st'
     = (st', Http.json 404 (Http.Message "Task not found"))
     /\ Handler.run (TaskRoutes.delete other id) st'
        = (st', Http.json 404 (Http.Message "Task not found"))
     /\ forall b now,
          TaskRoutes.put_errors b = [] ->
          Handler.run (TaskRoutes.put other id b now) st'
          = (st', Http.json 404 (Http.Message "Task not found")))
  /\ (forall t, In t (Db.tasks st) -> Tasks.id t <> id ->
                In t (Db.tasks st'))
  /\ (forall t, In t (Db.tasks st') -> In t (Db.tasks st))
  /\ Db.users st' = Db.users st.
Proof.
  intros Hrun Hstatus.
  destruct (delete_cases user id st)
    as [[r0 [H Hne]] | [t0 [others [_ [_ H]]]]];
    rewrite H in Hrun; injection Hrun as <- <-; [contradiction|].
  pose proof (select_task_deleted st id) as Hsel.
  split; [|split; [|split]].
  - intros other. split; [|split].
    + unfold TaskRoutes.get_one. run_handler.
      rewrite (select_joined_absent _ id Hsel). reflexivity.
    + unfold TaskRoutes.delete. run_handler. rewrite Hsel. reflexivity.
    + intros b now Hval. unfold TaskRoutes.put. rewrite Hval.
      run_handler. simpl. rewrite Hsel. reflexivity.
  - intros t Hin Hne. simpl. apply filter_In. split; [exact Hin|].
    apply Z.eqb_neq in Hne. now rewrite Hne.
  - intros t Hin. simpl in Hin. apply filter_In in Hin. tauto.
  - reflexivity.
Qed.

Lemma deleted_task_is_gone_witness :
  let st' := fst (Handler.run
                    (TaskRoutes.delete (Sample.claims_of Sample.alice) 1)
                    Sample.store) in
  Handler.run (TaskRoutes.get_one (Sample.claims_of Sample.root) 1) st'
  = (st', Http.json 404 (Http.Message "Task not found"))
  /\ In Sample.report (Db.tasks st')
  /\ Db.users st' = Db.users Sample.store.
Proof.
  intro st'.
  destruct (deleted_task_is_gone Sample.store st'
              (Sample.claims_of Sample.alice) 1
              (Http.json 200 (Http.Message "Task deleted successfully"))
              eq_refl eq_refl) as [Hgone [Hkept [_ Husers]]].
  split; [apply (Hgone (Sample.claims_of Sample.root))|].
  split; [|exact Husers].
  apply Hkept; [simpl; auto | simpl; discriminate].
Defined.

Lemma put_updates_apply b t :
  TaskRoutes.put_errors b = [] ->
  (forall s, TaskRoutes.title b = Js.Str s ->
     Tasks.title (fold_left Tasks.assign (TaskRoutes.put_updates b) t) = s)
  /\ (TaskRoutes.description b <> Js.Undefined ->
      Tasks.description (fold_left Tasks.assign (TaskRoutes.put_updates b) t)
      = Db.param (TaskRoutes.description b))
  /\ (forall s, TaskRoutes.status b = Js.Str s ->
        Tasks.status (fold_left Tasks.assign (TaskRoutes.put_updates b) t)
        = s).
Proof.
  intros Hval. apply put_errors_nil in Hval. destruct Hval as [Ht Hs].
  unfold TaskRoutes.put_updates.
  destruct b as [title descr status]. simpl in *.
  assert (Htitle : forall s, title = Js.Str s -> Js.truthy title = true).
  { intros s ->. simpl in *. destruct s; [discriminate | reflexivity]. }
  assert (Hstatus : forall s, status = Js.Str s -> Js.truthy status = true).
  { intros s ->. unfold Validator.optional in Hs. apply isIn_spec in Hs.
    simpl in Hs. destruct Hs as [<- | [<- | [<- | []]]]; reflexivity. }
  split; [|split].
  - intros s E. rewrite (Htitle s E). subst title. simpl.
    destruct (Js.defined descr); destruct (Js.truthy status); reflexivity.
  - intros Hd. destruct descr as [| |d]; [contradiction | |];
      destruct (Js.truthy title); destruct (Js.truthy status); reflexivity.
  - intros s E. rewrite (Hstatus s E). subst status. simpl.
    destruct (Js.truthy title); destruct (Js.defined descr); reflexivity.
Qed.

(** X10: after an update answered 200, the task returned is stored and
    carries every value the request supplied as a string: the supplied
    title, the supplied description and the supplied status; a description
    sent as [null] is stored as NULL. *)
Theorem update_applies (st st' : Db.Store) (user : Jwt.Claims) (id : Z)
    (b : TaskRoutes.Body) (now : Z) (r : Http.Response) :
  Handler.run (TaskRoutes.put user id b now) st = (st', r) ->
  Http.status r = 200 ->
  exists t',
    r = Http.json 200 (Http.TaskResult "Task updated successfully" (Some t'))
    /\ In t' (Db.tasks st')
    /\ (forall s, TaskRoutes.title b = Js.Str s -> Tasks.title t' = s)
    /\ (forall s, TaskRoutes.description b = Js.Str s ->
        Tasks.description t' = Some s)
    /\ (TaskRoutes.description b = Js.Null -> Tasks.description t' = None)
    /\ (forall s, TaskRoutes.status b = Js.Str s -> Tasks.status t' = s).
Proof.
  intros Hrun Hstatus.
  destruct (put_cases user id b now st)
    as [[r0 [H Hne]] | [t [others [a [sets [Hval [Hsel [_ [Hupd H]]]]]]]]];
    rewrite H in Hrun; injection Hrun as <- <-; [contradiction|].
  assert (Hrow : Db.select_task id (Db.update_task (a :: sets) id now st)
                 = map (fun t0 => Tasks.touch now
                                    (fold_left Tasks.assign (a :: sets) t0))
                       (t :: others))
    by (rewrite select_task_update, Hsel; reflexivity).
  rewrite Hrow. cbn [map hd_error].
  eexists. split; [reflexivity|].
  destruct (put_updates_apply b t Hval) as [Htitle [Hdescr Hst]].
  rewrite Hupd in Htitle, Hdescr, Hst.
  split.
  - assert (Hin : In (Tasks.touch now (fold_left Tasks.assign (a :: sets) t))
                    (Db.select_task id (Db.update_task (a :: sets) id now st)))
      by (rewrite Hrow; now left).
    apply filter_In in Hin. tauto.
  - split; [exact Htitle|].
    split; [|split; [|exact Hst]].
    + intros s E. unfold Tasks.touch. cbn [Tasks.description].
      rewrite Hdescr by (rewrite E; discriminate). now rewrite E.
    + intros E. unfold Tasks.touch. cbn [Tasks.description].
      rewrite Hdescr by (rewrite E; discriminate). now rewrite E.
Qed.

Lemma update_applies_witness :
  let b := {| TaskRoutes.title := Js.Str "buy oat milk";
              TaskRoutes.description := Js.Null;
              TaskRoutes.status := Js.Str "completed" |} in
  let out := Handler.run
               (TaskRoutes.put (Sample.claims_of Sample.alice) 1 b 500)
               Sample.store in
  exists t',
    snd out
    = Http.json 200 (Http.TaskResult "Task updated successfully" (Some t'))
    /\ In t' (Db.tasks (fst out))
    /\ Tasks.title t' = "buy oat milk"
    /\ Tasks.description t' = None
    /\ Tasks.status t' = "completed".
Proof.
  intros b out.
  destruct (update_applies Sample.store (fst out)
              (Sample.claims_of Sample.alice) 1 b 500 (snd out)
              eq_refl eq_refl)
    as [t' [Hr [Hin [Htitle [_ [Hnull Hst]]]]]].
  exists t'. split; [exact Hr | split; [exact Hin|]].
  split; [now apply Htitle|].
  split; [now apply Hnull | now apply Hst].
Defined.

Lemma key_injective {A : Type} (key : A -> Z) (l : list A) (a b : A) :
  NoDup (map key l) -> In a l -> In b l -> key a = key b -> a = b.
Proof.
  intros Hnd Ha Hb Hk.
  pose proof (filter_key key l a Hnd Ha) as Hf.
  assert (Hin : In b (filter (fun x => key x =? key a) l)).
  { apply filter_In. split; [exact Hb|]. rewrite Hk. apply Z.eqb_refl. }
  rewrite Hf in Hin. destruct Hin as [-> | []]. reflexivity.
Qed.

(** What a create that passes the validation chains stores and answers. *)
Lemma post_valid user b now st :
  Inv.task_ids_fresh st ->
  TaskRoutes.post_errors b = [] ->
  Handler.run (TaskRoutes.post user b now) st
  = (fst (Db.insert_task (Validator.toString (TaskRoutes.title b))
            (Db.param (TaskRoutes.description b))
            (Validator.toString (Js.default "pending" (TaskRoutes.status b)))
            (Jwt.id user) now st),
     Http.json 201
       (Http.TaskResult "Task created successfully"
          (Some {| Tasks.id := Db.tasks_auto_increment st;
                   Tasks.title := Validator.toString (TaskRoutes.title b);
                   Tasks.description := Db.param (TaskRoutes.description b);
                   Tasks.status :=
                     Validator.toString
                       (Js.default "pending" (TaskRoutes.status b));
                   Tasks.user_id := Jwt.id user;
                   Tasks.created_at := now; Tasks.updated_at := now |}))).
Proof.
  intros Hfresh Hval.
  destruct (post_cases user b now st) as [[_ Hne] | [_ H]];
    [contradiction|].
  rewrite H.
  pose proof (select_inserted_task st
                (Validator.toString (TaskRoutes.title b))
                (Db.param (TaskRoutes.description b))
                (Validator.toString
                   (Js.default "pending" (TaskRoutes.status b)))
                (Jwt.id user) now Hfresh) as Hsel.
  cbn [snd Db.insert_task] in Hsel. rewrite Hsel. reflexivity.
Qed.

Lemma post_201 user b now st st' r :
  Handler.run (TaskRoutes.post user b now) st = (st', r) ->
  Http.status r = 201 ->
  TaskRoutes.post_errors b = [].
Proof.
  intros Hrun Hstatus.
  destruct (post_cases user b now st) as [[H _] | [Hval _]];
    [|exact Hval].
  rewrite H in Hrun. injection Hrun as <- <-. discriminate.
Qed.

(** The row the join yields for a task whose owner is the stored user [u]. *)
Lemma join_new_task st u t :
  Inv.user_ids_unique st ->
  In u (Db.users st) ->
  Users.id u = Tasks.user_id t ->
  map (fun u' => {| Tasks.task := t; Tasks.username := Users.username u' |})
      (filter (fun u' => Tasks.user_id t =? Users.id u') (Db.users st))
  = [ {| Tasks.task := t; Tasks.username := Users.username u |} ].
Proof.
  intros Hkey Hu Hid.
  rewrite (filter_ext _ (fun x => Users.id x =? Users.id u)).
  - rewrite (filter_key Users.id _ u Hkey Hu). reflexivity.
  - intros x. rewrite Hid. apply Z.eqb_sym.
Qed.

Lemma join_after_insert st title descr status uid now u :
  Inv.user_ids_unique st ->
  In u (Db.users st) ->
  Users.id u = uid ->
  Db.tasks_join_users (fst (Db.insert_task title descr status uid now st))
  = Db.tasks_join_users st
    ++ [ {| Tasks.task :=
              {| Tasks.id := Db.tasks_auto_increment st;
                 Tasks.title := title; Tasks.description := descr;
                 Tasks.status := status; Tasks.user_id := uid;
                 Tasks.created_at := now; Tasks.updated_at := now |};
            Tasks.username := Users.username u |} ].
Proof.
  intros Hkey Hu Hid. unfold Db.tasks_join_users, Db.insert_task.
  cbn [fst Db.users Db.tasks]. rewrite flat_map_app. f_equal.
  cbn [flat_map]. rewrite app_nil_r.
  now apply join_new_task.
Qed.

(** X11: a task that has just been created can be read back by its
    creator: on a consistent store, after a create by a stored user is
    answered 201, read-single on the returned id answers 200 with that very
    task and the creator's username. *)
Theorem created_task_is_readable (st st' : Db.Store) (user : Jwt.Claims)
    (u : Users.row) (b : TaskRoutes.Body) (now : Z) (r : Http.Response) :
  Inv.consistent st ->
  In u (Db.users st) ->
  Users.id u = Jwt.id user ->
  Handler.run (TaskRoutes.post user b now) st = (st', r) ->
  Http.status r = 201 ->
  exists t,
    r = Http.json 201 (Http.TaskResult "Task created successfully" (Some t))
    /\ Handler.run (TaskRoutes.get_one user (Tasks.id t)) st'
       = (st', Http.json 200
                 (Http.TaskJson {| Tasks.task := t;
                                   Tasks.username := Users.username u |})).
Proof.
  intros Hok Hu Hid Hrun Hstatus.
  pose proof (post_201 user b now st st' r Hrun Hstatus) as Hval.
  rewrite (post_valid user b now st (Inv.tasks_fresh st Hok) Hval) in Hrun.
  injection Hrun as <- <-.
  eexists. split; [reflexivity|]. cbn [Tasks.id].
  unfold TaskRoutes.get_one. run_handler.
  unfold Db.select_joined_by_id.
  pose proof (join_after_insert st
                (Validator.toString (TaskRoutes.title b))
                (Db.param (TaskRoutes.description b))
                (Validator.toString
                   (Js.default "pending" (TaskRoutes.status b)))
                (Jwt.id user) now u (Inv.users_key st Hok) Hu Hid) as Hjoin.
  cbn [fst Db.insert_task] in Hjoin. rewrite Hjoin.
  rewrite filter_app. cbn [filter Tasks.task Tasks.id].
  rewrite Z.eqb_refl.
  replace (filter _ (Db.tasks_join_users st)) with (@nil Tasks.joined).
  - cbn [app]. unfold TaskRoutes.denied. cbn [Tasks.task Tasks.user_id].
    rewrite Z.eqb_refl, andb_false_r. reflexivity.
  - symmetry. apply (select_joined_absent st).
    apply select_task_absent. intros t Ht.
    pose proof (Inv.tasks_fresh st Hok t Ht). lia.
Qed.

Lemma created_task_is_readable_witness :
  let user := Sample.claims_of Sample.bob in
  let out := Handler.run
               (TaskRoutes.post user (Sample.only_title "call mum") 500)
               Sample.store in
  exists t,
    snd out
    = Http.json 201 (Http.TaskResult "Task created successfully" (Some t))
    /\ Handler.run (TaskRoutes.get_one user (Tasks.id t)) (fst out)
       = (fst out,
          Http.json 200
            (Http.TaskJson {| Tasks.task := t; Tasks.username := "bob" |})).
Proof.
  intros user out.
  apply (created_task_is_readable Sample.store (fst out) user Sample.bob
           (Sample.only_title "call mum") 500 (snd out)
           sample_store_consistent);
    [simpl; auto | reflexivity | reflexivity | reflexivity].
Defined.

Lemma join_task_in st r :
  In r (Db.tasks_join_users st) -> In (Tasks.task r) (Db.tasks st).
Proof.
  unfold Db.tasks_join_users. intros Hin.
  apply in_flat_map in Hin. destruct Hin as [t [Ht Hr]].
  apply in_map_iff in Hr. destruct Hr as [u [<- _]]. exact Ht.
Qed.

(** A row created after all the others sorts first. *)
Lemma order_by_newest l r :
  (forall r', In r' l ->
     Tasks.created_at (Tasks.task r') < Tasks.created_at (Tasks.task r)) ->
  Db.order_by_created_at_desc (l ++ [r])
  = r :: Db.order_by_created_at_desc l.
Proof.
  induction l as [|x l IH]; intros Hlt; [reflexivity|].
  cbn [app Db.order_by_created_at_desc].
  rewrite IH by (intros r' Hr'; apply Hlt; now right).
  cbn [Db.insert_desc].
  destruct (Z.leb_spec (Tasks.created_at (Tasks.task r))
              (Tasks.created_at (Tasks.task x))) as [Hle|Hgt];
    [|reflexivity].
  specialize (Hlt x (or_introl eq_refl)). lia.
Qed.

(** X12: a task created later than every stored task heads its creator's
    list: on a consistent store, after a create by a stored user at a time
    past every [created_at] is answered 201, that user's list is the new
    task, with the creator's username, followed by the former list. *)
Theorem created_task_heads_list (st st' : Db.Store) (user : Jwt.Claims)
    (u : Users.row) (b : TaskRoutes.Body) (now : Z) (r : Http.Response) :
  Inv.consistent st ->
  In u (Db.users st) ->
  Users.id u = Jwt.id user ->
  (forall t, In t (Db.tasks st) -> Tasks.created_at t < now) ->
  Handler.run (TaskRoutes.post user b now) st = (st', r) ->
  Http.status r = 201 ->
  exists t rows,
    r = Http.json 201 (Http.TaskResult "Task created successfully" (Some t))
    /\ Handler.run (TaskRoutes.get_all user) st
       = (st, Http.json 200 (Http.TaskList rows))
    /\ Handler.run (TaskRoutes.get_all user) st'
       = (st', Http.json 200
                 (Http.TaskList
                    ({| Tasks.task := t;
                        Tasks.username := Users.username u |} :: rows))).
Proof.
  intros Hok Hu Hid Hnew Hrun Hstatus.
  pose proof (post_201 user b now st st' r Hrun Hstatus) as Hval.
  rewrite (post_valid user b now st (Inv.tasks_fresh st Hok) Hval) in Hrun.
  injection Hrun as <- <-.
  pose proof (join_after_insert st
                (Validator.toString (TaskRoutes.title b))
                (Db.param (TaskRoutes.description b))
                (Validator.toString
                   (Js.default "pending" (TaskRoutes.status b)))
                (Jwt.id user) now u (Inv.users_key st Hok) Hu Hid) as Hjoin.
  cbn [fst Db.insert_task] in Hjoin.
  eexists. eexists. split; [reflexivity|].
  unfold TaskRoutes.get_all. run_handler.
  split; [reflexivity|]. f_equal. f_equal. f_equal.
  destruct (negb (Jwt.role user =? "admin")%string).
  - unfold Db.select_joined_by_user. rewrite Hjoin.
    rewrite filter_app. cbn [filter Tasks.task Tasks.user_id].
    rewrite Z.eqb_refl. apply order_by_newest.
    intros r' Hr'. apply filter_In in Hr'. destruct Hr' as [Hr' _].
    cbn [Tasks.task Tasks.created_at].
    apply Hnew. now apply join_task_in.
  - unfold Db.select_all_joined. rewrite Hjoin.
    apply order_by_newest.
    intros r' Hr'. cbn [Tasks.task Tasks.created_at].
    apply Hnew. now apply join_task_in.
Qed.

Lemma created_task_heads_list_witness :
  let user := Sample.claims_of Sample.bob in
  let out := Handler.run
               (TaskRoutes.post user (Sample.only_title "call mum") 500)
               Sample.store in
  exists t rows,
    snd out
    = Http.json 201 (Http.TaskResult "Task created successfully" (Some t))
    /\ Handler.run (TaskRoutes.get_all user) Sample.store
       = (Sample.store, Http.json 200 (Http.TaskList rows))
    /\ Handler.run (TaskRoutes.get_all user) (fst out)
       = (fst out,
          Http.json 200
            (Http.TaskList
               ({| Tasks.task := t; Tasks.username := "bob" |} :: rows))).
Proof.
  intros user out.
  apply (created_task_heads_list Sample.store (fst out) user Sample.bob
           (Sample.only_title "call mum") 500 (snd out)
           sample_store_consistent);
    [simpl; auto | reflexivity | | reflexivity | reflexivity].
  intros t Ht. simpl in Ht.
  destruct Ht as [<- | [<- | [<- | []]]]; simpl; lia.
Defined.

(** * The frontend against the routers *)

(** ** Who may edit *)

Lemma canModify_gate u row :
  TaskManager.canModify (Some u) row
  = negb (TaskRoutes.denied (claims_of_public u) (Tasks.task row)).
Proof.
  unfold TaskManager.canModify, TaskRoutes.denied, claims_of_public. simpl.
  destruct (Http.role u =? "admin")%string;
    destruct (Tasks.user_id (Tasks.task row) =? Http.id u); reflexivity.
Qed.

(** X13: the Edit and Delete buttons follow the gate of the routers: for
    the user object and the token of any login or registration answer, the
    frontend offers to modify a task exactly when the gate lets the payload
    of that token through; with nobody logged in it never does. *)
Theorem canModify_matches_gate (env : AuthRoutes.Env) (now : Z)
    (req : ApiRequest) (st st' : Db.Store) (code : Z) (message : string)
    (token : Jwt.Token) (user : Http.PublicUser) (row : Tasks.joined) :
  Handler.run (serve env now req) st
  = (st', Http.json code (Http.AuthResult message token user)) ->
  TaskManager.canModify (Some user) row
  = negb (TaskRoutes.denied (Jwt.payload token) (Tasks.task row))
  /\ TaskManager.canModify None row = false.
Proof.
  intros Hrun. split; [|reflexivity].
  rewrite canModify_gate. f_equal. f_equal.
  destruct req; simpl in Hrun.
  - destruct (AuthRoutes.register_errors env b) as [|e errs] eqn:Herr.
    2:{ rewrite register_invalid in Hrun by congruence. discriminate. }
    destruct (Db.select_user_by_email_or_username (AuthRoutes.collate env)
                (Validator.toString (AuthRoutes.email b))
                (Validator.toString (AuthRoutes.username b)) st)
      as [|x rest] eqn:Hsel.
    + rewrite (register_fresh env b salt now st Herr Hsel) in Hrun.
      injection Hrun as _ _ _ <- <-. reflexivity.
    + rewrite (register_existing env b salt now st x rest Herr Hsel)
        in Hrun. discriminate.
  - destruct (AuthRoutes.login_errors env b) as [|e errs] eqn:Herr.
    2:{ rewrite login_invalid in Hrun by congruence. discriminate. }
    destruct (Db.select_user_by_email (AuthRoutes.collate env)
                (Validator.toString (AuthRoutes.login_email b)) st)
      as [|u others] eqn:Hsel.
    + rewrite (login_not_found env b st Herr Hsel) in Hrun. discriminate.
    + rewrite (login_found env b st u others Herr Hsel) in Hrun.
      destruct (AuthRoutes.bcrypt_compare env _ _); [|discriminate].
      injection Hrun as _ _ _ <- <-. reflexivity.
  - revert Hrun. unfold TaskRoutes.get_all. run_handler. discriminate.
  - revert Hrun. unfold TaskRoutes.get_one. run_handler.
    destruct (Db.select_joined_by_id id st) as [|r rows]; [discriminate|].
    destruct (TaskRoutes.denied user0 (Tasks.task r)); discriminate.
  - destruct (post_cases user0 b now st) as [[H _] | [_ H]];
      rewrite H in Hrun; discriminate.
  - destruct (put_cases user0 id b now st)
      as [[r0 [H _]] | [t [others [a [sets [Hval [Hsel [Hden [_ H]]]]]]]]].
    + revert Hrun. clear H.
      destruct (TaskRoutes.put_errors b) as [|e errs] eqn:Herr.
      2:{ rewrite put_invalid by congruence. discriminate. }
      destruct (Db.select_task id st) as [|t others] eqn:Hsel.
      { unfold TaskRoutes.put. rewrite Herr. run_handler. simpl.
        rewrite Hsel. discriminate. }
      rewrite (put_valid user0 id b now st t others Herr Hsel).
      destruct (TaskRoutes.denied user0 t); [discriminate|].
      destruct (TaskRoutes.put_updates b); discriminate.
    + rewrite H in Hrun. discriminate.
  - revert Hrun. unfold TaskRoutes.delete. run_handler.
    destruct (Db.select_task id st) as [|t others]; [discriminate|].
    destruct (TaskRoutes.denied user0 t); discriminate.
Qed.

Lemma canModify_matches_gate_witness :
  TaskManager.canModify
    (Some {| Http.id := 2; Http.username := "bob";
             Http.email := "bob@x.com"; Http.role := "user" |})
    {| Tasks.task := Sample.milk; Tasks.username := "alice" |}
  = negb (TaskRoutes.denied (Sample.claims_of Sample.bob) Sample.milk)
  /\ TaskManager.canModify None
       {| Tasks.task := Sample.milk; Tasks.username := "alice" |} = false.
Proof.
  apply (canModify_matches_gate Sample.env 500
           (Login {| AuthRoutes.login_email := Js.Str "bob@x.com";
                     AuthRoutes.login_password := Js.Str "hunter22" |})
           Sample.store Sample.store 200 "Login successful"
           (Jwt.sign (Sample.claims_of Sample.bob) "s3cret" "24h")).
  reflexivity.
Defined.

(** ** What the form sends *)

Lemma trim_blank s : s = "" -> TaskManager.trim s = "".
Proof. intros ->. reflexivity. Qed.

Lemma handleSubmit_sent editing f (req : TaskManager.Request) :
  TaskManager.handleSubmit editing f = inr req ->
  TaskManager.title f <> ""
  /\ req = match editing with
           | Some task =>
               TaskManager.Put (Tasks.id (Tasks.task task))
                 (TaskManager.body_of f)
           | None => TaskManager.Post (TaskManager.body_of f)
           end.
Proof.
  unfold TaskManager.handleSubmit.
  destruct (String.eqb_spec (TaskManager.trim (TaskManager.title f)) "")
    as [E|E]; [discriminate|].
  intros H. split.
  - intros Hblank. apply E. now apply trim_blank.
  - destruct editing; injection H as <-; reflexivity.
Qed.

(** X14: a new task submitted from the form is never turned down by the
    validation chains: when the form has no task under edit, its title is
    not blank and its status is one of the options of the select, POST
    answers 201 and stores the title, the description and the status of
    the form under the caller's id. *)
Theorem form_create_accepted (st : Db.Store) (user : Jwt.Claims)
    (f : TaskManager.FormData) (b : TaskRoutes.Body) (now : Z) :
  Inv.task_ids_fresh st ->
  TaskManager.handleSubmit None f = inr (TaskManager.Post b) ->
  In (TaskManager.status f) TaskManager.status_options ->
  exists st' t,
    Handler.run (TaskRoutes.post user b now) st
    = (st', Http.json 201
              (Http.TaskResult "Task created successfully" (Some t)))
    /\ Db.tasks st' = Db.tasks st ++ [t]
    /\ Tasks.title t = TaskManager.title f
    /\ Tasks.description t = Some (TaskManager.description f)
    /\ Tasks.status t = TaskManager.status f
    /\ Tasks.user_id t = Jwt.id user.
Proof.
  intros Hfresh Hsent Hstatus.
  apply handleSubmit_sent in Hsent. destruct Hsent as [Htitle Hreq].
  injection Hreq as ->.
  assert (Hval : TaskRoutes.post_errors (TaskManager.body_of f) = []).
  { apply post_errors_nil. split.
    - destruct (Validator.notEmpty _) eqn:E; [reflexivity|].
      apply notEmpty_false in E. contradiction.
    - unfold Validator.optional. simpl TaskRoutes.status.
      now apply isIn_spec. }
  rewrite (post_valid user _ now st Hfresh Hval).
  eexists. eexists. split; [reflexivity|].
  simpl. repeat split.
Qed.

Lemma form_create_accepted_witness :
  let f := {| TaskManager.title := " call mum ";
              TaskManager.description := "";
              TaskManager.status := "pending" |} in
  exists st' t,
    Handler.run
      (TaskRoutes.post (Sample.claims_of Sample.bob)
         (TaskManager.body_of f) 500) Sample.store
    = (st', Http.json 201
              (Http.TaskResult "Task created successfully" (Some t)))
    /\ Db.tasks st' = Db.tasks Sample.store ++ [t]
    /\ Tasks.title t = " call mum "
    /\ Tasks.description t = Some ""
    /\ Tasks.status t = "pending"
    /\ Tasks.user_id t = 2.
Proof.
  intro f.
  apply (form_create_accepted Sample.store (Sample.claims_of Sample.bob) f
           (TaskManager.body_of f) 500).
  - exact (Inv.tasks_fresh _ sample_store_consistent).
  - reflexivity.
  - simpl. auto.
Defined.

(** An update that supplies all three fields as strings, on a task the
    caller may touch. *)
Lemma put_all_fields st user id t others title descr status now :
  title <> "" ->
  In status TaskRoutes.statuses ->
  Db.select_task id st = t :: others ->
  TaskRoutes.denied user t = false ->
  let sets := [ Tasks.SetTitle title; Tasks.SetDescription (Some descr);
                Tasks.SetStatus status ] in
  Handler.run
    (TaskRoutes.put user id
       {| TaskRoutes.title := Js.Str title;
          TaskRoutes.description := Js.Str descr;
          TaskRoutes.status := Js.Str status |} now) st
  = (Db.update_task sets id now st,
     Http.json 200
       (Http.TaskResult "Task updated successfully"
          (Some (Tasks.touch now (fold_left Tasks.assign sets t)))))
  /\ In (Tasks.touch now (fold_left Tasks.assign sets t))
        (Db.tasks (Db.update_task sets id now st)).
Proof.
  intros Htitle Hstatus Hsel Hden sets.
  set (b := {| TaskRoutes.title := Js.Str title;
               TaskRoutes.description := Js.Str descr;
               TaskRoutes.status := Js.Str status |}).
  assert (Hval : TaskRoutes.put_errors b = []).
  { apply put_errors_nil. split.
    - simpl. destruct (Validator.notEmpty _) eqn:E; [reflexivity|].
      apply notEmpty_false in E. contradiction.
    - unfold Validator.optional. simpl TaskRoutes.status.
      now apply isIn_spec. }
  assert (Hupd : TaskRoutes.put_updates b = sets).
  { unfold TaskRoutes.put_updates. simpl.
    destruct (String.eqb_spec title "") as [E|_]; [contradiction|].
    destruct (String.eqb_spec status "") as [E|_]; [|reflexivity].
    rewrite E in Hstatus. simpl in Hstatus.
    destruct Hstatus as [H | [H | [H | []]]]; discriminate. }
  assert (Hrow : Db.select_task id (Db.update_task sets id now st)
                 = map (fun t0 => Tasks.touch now
                                    (fold_left Tasks.assign sets t0))
                       (t :: others))
    by (rewrite select_task_update, Hsel; reflexivity).
  split.
  - rewrite (put_valid user id b now st t others Hval Hsel), Hden, Hupd.
    unfold sets at 1. cbv beta iota. fold sets.
    rewrite Hrow. reflexivity.
  - assert (H : In (Tasks.touch now (fold_left Tasks.assign sets t))
                   (Db.select_task id (Db.update_task sets id now st)))
      by (rewrite Hrow; now left).
    apply filter_In in H. tauto.
Qed.

(** X15: an edit submitted from the form goes through: on a consistent
    store, for a stored task the frontend offers to modify, a form whose
    title is not blank and whose status is one of the options is answered
    200 by PUT, never "No fields to update", and the stored task takes the
    title, the description and the status of the form while keeping its id
    and owner. *)
Theorem form_edit_accepted (st : Db.Store) (user : Http.PublicUser)
    (row : Tasks.joined) (f : TaskManager.FormData) (id : Z)
    (b : TaskRoutes.Body) (now : Z) :
  Inv.consistent st ->
  In (Tasks.task row) (Db.tasks st) ->
  TaskManager.canModify (Some user) row = true ->
  TaskManager.handleSubmit (Some row) f = inr (TaskManager.Put id b) ->
  In (TaskManager.status f) TaskManager.status_options ->
  exists st' t',
    Handler.run (TaskRoutes.put (claims_of_public user) id b now) st
    = (st', Http.json 200
              (Http.TaskResult "Task updated successfully" (Some t')))
    /\ In t' (Db.tasks st')
    /\ Tasks.title t' = TaskManager.title f
    /\ Tasks.description t' = Some (TaskManager.description f)
    /\ Tasks.status t' = TaskManager.status f
    /\ Tasks.id t' = Tasks.id (Tasks.task row)
    /\ Tasks.user_id t' = Tasks.user_id (Tasks.task row).
Proof.
  intros Hok Hin Hcan Hsent Hstatus.
  apply handleSubmit_sent in Hsent. destruct Hsent as [Htitle Hreq].
  injection Hreq as -> ->.
  rewrite canModify_gate in Hcan. apply negb_true_iff in Hcan.
  pose proof (select_task_key st _ (Inv.tasks_key st Hok) Hin) as Hsel.
  destruct (put_all_fields st (claims_of_public user)
              (Tasks.id (Tasks.task row)) (Tasks.task row) []
              (TaskManager.title f) (TaskManager.description f)
              (TaskManager.status f) now Htitle Hstatus Hsel Hcan)
    as [Hrun Hstored].
  eexists. eexists. split; [exact Hrun|].
  split; [exact Hstored|]. simpl. repeat split.
Qed.

Lemma form_edit_accepted_witness :
  let row := {| Tasks.task := Sample.milk; Tasks.username := "alice" |} in
  let f := {| TaskManager.title := "buy oat milk";
              TaskManager.description := "";
              TaskManager.status := "completed" |} in
  let user := {| Http.id := 1; Http.username := "alice";
                 Http.email := "alice@x.com"; Http.role := "user" |} in
  exists st' t',
    Handler.run
      (TaskRoutes.put (claims_of_public user) 1 (TaskManager.body_of f) 500)
      Sample.store
    = (st', Http.json 200
              (Http.TaskResult "Task updated successfully" (Some t')))
    /\ In t' (Db.tasks st')
    /\ Tasks.title t' = "buy oat milk"
    /\ Tasks.description t' = Some ""
    /\ Tasks.status t' = "completed"
    /\ Tasks.id t' = 1
    /\ Tasks.user_id t' = 1.
Proof.
  intros row f user.
  apply (form_edit_accepted Sample.store user row f 1
           (TaskManager.body_of f) 500 sample_store_consistent).
  - simpl. auto.
  - reflexivity.
  - reflexivity.
  - simpl. auto.
Defined.

(** X16: opening a task in the form and submitting it unchanged rewrites
    the task with its own title and status; the description becomes the
    empty string where it was NULL.  This holds on a consistent store for a
    stored task the frontend offers to modify, whose title is not blank and
    whose status is one of the options of the select. *)
Theorem unchanged_edit (st : Db.Store) (user : Http.PublicUser)
    (row : Tasks.joined) (id : Z) (b : TaskRoutes.Body) (now : Z) :
  Inv.consistent st ->
  In (Tasks.task row) (Db.tasks st) ->
  TaskManager.canModify (Some user) row = true ->
  TaskManager.handleSubmit (Some row) (TaskManager.handleEdit row)
  = inr (TaskManager.Put id b) ->
  In (Tasks.status (Tasks.task row)) TaskManager.status_options ->
  exists st' t',
    Handler.run (TaskRoutes.put (claims_of_public user) id b now) st
    = (st', Http.json 200
              (Http.TaskResult "Task updated successfully" (Some t')))
    /\ In t' (Db.tasks st')
    /\ Tasks.title t' = Tasks.title (Tasks.task row)
    /\ Tasks.status t' = Tasks.status (Tasks.task row)
    /\ Tasks.description t'
       = match Tasks.description (Tasks.task row) with
         | Some d => Some d
         | None => Some ""
         end.
Proof.
  intros Hok Hin Hcan Hsent Hstatus.
  apply handleSubmit_sent in Hsent. destruct Hsent as [Htitle Hreq].
  injection Hreq as -> ->.
  rewrite canModify_gate in Hcan. apply negb_true_iff in Hcan.
  pose proof (select_task_key st _ (Inv.tasks_key st Hok) Hin) as Hsel.
  destruct (put_all_fields st (claims_of_public user)
              (Tasks.id (Tasks.task row)) (Tasks.task row) []
              (TaskManager.title (TaskManager.handleEdit row))
              (TaskManager.description (TaskManager.handleEdit row))
              (TaskManager.status (TaskManager.handleEdit row))
              now Htitle Hstatus Hsel Hcan)
    as [Hrun Hstored].
  eexists. eexists. split; [exact Hrun|].
  split; [exact Hstored|]. simpl.
  destruct (Tasks.description (Tasks.task row)); repeat split.
Qed.

Lemma unchanged_edit_witness :
  let row := {| Tasks.task := Sample.milk; Tasks.username := "alice" |} in
  let user := {| Http.id := 1; Http.username := "alice";
                 Http.email := "alice@x.com"; Http.role := "user" |} in
  exists st' t',
    Handler.run
      (TaskRoutes.put (claims_of_public user) 1
         (TaskManager.body_of (TaskManager.handleEdit row)) 500)
      Sample.store
    = (st', Http.json 200
              (Http.TaskResult "Task updated successfully" (Some t')))
    /\ In t' (Db.tasks st')
    /\ Tasks.title t' = "buy milk"
    /\ Tasks.status t' = "pending"
    /\ Tasks.description t' = Some "".
Proof.
  intros row user.
  apply (unchanged_edit Sample.store user row 1
           (TaskManager.body_of (TaskManager.handleEdit row)) 500
           sample_store_consistent).
  - simpl. auto.
  - reflexivity.
  - reflexivity.
  - simpl. auto.
Defined.

(** ** The list after a delete *)

Lemma insert_desc_front r l :
  Forall (fun x => Tasks.created_at (Tasks.task x)
                   <= Tasks.created_at (Tasks.task r)) l ->
  Db.insert_desc r l = r :: l.
Proof.
  destruct l as [|x l]; [reflexivity|].
  intros Hall. inversion Hall as [|y ys Hx _]; subst. simpl.
  apply Z.leb_le in Hx. now rewrite Hx.
Qed.

Lemma filter_insert_desc (q : Tasks.joined -> bool) r l :
  StronglySorted newest_first l ->
  filter q (Db.insert_desc r l)
  = if q r then Db.insert_desc r (filter q l) else filter q l.
Proof.
  induction l as [|x l IH]; intros Hs.
  - simpl. destruct (q r); reflexivity.
  - inversion Hs as [|y ys Hs' Hall]; subst. cbn [Db.insert_desc].
    destruct (Z.leb_spec (Tasks.created_at (Tasks.task x))
                (Tasks.created_at (Tasks.task r))) as [Hle|Hgt].
    + cbn [filter]. destruct (q r) eqn:Hr; [|reflexivity].
      destruct (q x) eqn:Hx.
      * cbn [Db.insert_desc]. apply Z.leb_le in Hle. now rewrite Hle.
      * symmetry. f_equal. apply insert_desc_front.
        apply Forall_forall. intros z Hz. apply filter_In in Hz.
        destruct Hz as [Hz _].
        rewrite Forall_forall in Hall. specialize (Hall z Hz).
        unfold newest_first in Hall. lia.
    + cbn [filter]. rewrite (IH Hs').
      destruct (q x) eqn:Hx; destruct (q r) eqn:Hr; try reflexivity.
      cbn [Db.insert_desc]. apply Z.leb_gt in Hgt. now rewrite Hgt.
Qed.

(** A WHERE clause can be applied after the ORDER BY as well as before. *)
Lemma order_by_filter (q : Tasks.joined -> bool) l :
  Db.order_by_created_at_desc (filter q l)
  = filter q (Db.order_by_created_at_desc l).
Proof.
  induction l as [|x l IH]; [reflexivity|].
  cbn [filter Db.order_by_created_at_desc].
  rewrite (filter_insert_desc q x _ (order_by_sorted l)).
  destruct (q x); [|exact IH].
  cbn [Db.order_by_created_at_desc]. now rewrite IH.
Qed.

Lemma join_after_delete st id :
  Db.tasks_join_users (Db.delete_task id st)
  = filter (fun r => negb (Tasks.id (Tasks.task r) =? id))
      (Db.tasks_join_users st).
Proof.
  unfold Db.tasks_join_users, Db.delete_task. cbn [Db.users Db.tasks].
  symmetry.
  apply (join_rows (Db.users st) (Db.tasks st)
           (fun t => negb (Tasks.id t =? id))).
Qed.

Lemma filter_comm {A : Type} (p q : A -> bool) (l : list A) :
  filter p (filter q l) = filter q (filter p l).
Proof.
  induction l as [|x l IH]; [reflexivity|]. simpl.
  destruct (p x) eqn:Hp; destruct (q x) eqn:Hq; simpl;
    rewrite ?Hp, ?Hq, IH; reflexivity.
Qed.

(** X17: the list the frontend keeps after a delete is the list the server
    would send: if the frontend holds the answer of GET /tasks and a
    DELETE is answered 200, dropping the rows with that id, as
    [handleDelete] does, gives exactly the answer of a new GET /tasks (the
    ORDER BY being a stable sort). *)
Theorem handleDelete_in_sync (st st' : Db.Store) (user : Jwt.Claims)
    (id : Z) (r : Http.Response) (rows : list Tasks.joined) :
  Handler.run (TaskRoutes.get_all user) st
  = (st, Http.json 200 (Http.TaskList rows)) ->
  Handler.run (TaskRoutes.delete user id) st = (st', r) ->
  Http.status r = 200 ->
  Handler.run (TaskRoutes.get_all user) st'
  = (st', Http.json 200
            (Http.TaskList (TaskManager.handleDelete id rows))).
Proof.
  intros Hlist Hrun Hstatus.
  destruct (delete_cases user id st)
    as [[r0 [H Hne]] | [t0 [others [_ [_ H]]]]];
    rewrite H in Hrun; injection Hrun as <- <-; [contradiction|].
  revert Hlist. unfold TaskRoutes.get_all, TaskManager.handleDelete.
  run_handler. intros Hlist. injection Hlist as <-.
  f_equal. f_equal. f_equal.
  destruct (negb (Jwt.role user =? "admin")%string).
  - unfold Db.select_joined_by_user.
    rewrite join_after_delete, filter_comm. apply order_by_filter.
  - unfold Db.select_all_joined.
    rewrite join_after_delete. apply order_by_filter.
Qed.

Lemma handleDelete_in_sync_witness :
  let user := Sample.claims_of Sample.alice in
  let st' := fst (Handler.run (TaskRoutes.delete user 1) Sample.store) in
  Handler.run (TaskRoutes.get_all user) st'
  = (st',
     Http.json 200
       (Http.TaskList
          (TaskManager.handleDelete 1
             [ {| Tasks.task := Sample.bread; Tasks.username := "alice" |};
               {| Tasks.task := Sample.milk; Tasks.username := "alice" |} ]))).
Proof.
  intros user st'.
  apply (handleDelete_in_sync Sample.store st' user 1
           (Http.json 200 (Http.Message "Task deleted successfully")));
    reflexivity.
Defined.

(** ** Status badges *)

(** X18: every status the routers accept has its badge: [getStatusClass]
    gives the class [status-] followed by the status for pending,
    in-progress and completed, and the empty class for anything else. *)
Theorem getStatusClass_spec (status : string) :
  (In status TaskRoutes.statuses ->
   TaskManager.getStatusClass status = ("status-" ++ status)%string)
  /\ (~ In status TaskRoutes.statuses ->
      TaskManager.getStatusClass status = "").
Proof.
  unfold TaskManager.getStatusClass. split.
  - intros [<- | [<- | [<- | []]]]; reflexivity.
  - intros Hout.
    destruct (String.eqb_spec status "pending") as [E|_];
      [exfalso; apply Hout; simpl; auto|].
    destruct (String.eqb_spec status "in-progress") as [E|_];
      [exfalso; apply Hout; simpl; auto|].
    destruct (String.eqb_spec status "completed") as [E|_];
      [exfalso; apply Hout; simpl; auto|].
    reflexivity.
Qed.

Lemma getStatusClass_spec_witness :
  TaskManager.getStatusClass "in-progress" = "status-in-progress"
  /\ TaskManager.getStatusClass "done" = "".
Proof.
  split.
  - apply (getStatusClass_spec "in-progress"). simpl. auto.
  - apply (getStatusClass_spec "done").
    simpl. intros [H | [H | [H | []]]]; discriminate.
Defined.

(** * Reading through the join *)

Lemma get_one_found user id st row rest :
  Db.select_joined_by_id id st = row :: rest ->
  Http.status (snd (Handler.run (TaskRoutes.get_one user id) st)) <> 404.
Proof.
  intros Hsel. unfold TaskRoutes.get_one. run_handler. rewrite Hsel.
  destruct (TaskRoutes.denied user (Tasks.task row)); discriminate.
Qed.

(** X19: read-single answers 404 exactly for the ids no task has, on a
    store where every task's owner is a stored user. *)
Theorem read_single_not_found (st : Db.Store) (user : Jwt.Claims) (id : Z) :
  Inv.owners_exist st ->
  Handler.run (TaskRoutes.get_one user id) st
  = (st, Http.json 404 (Http.Message "Task not found"))
  <-> forall t, In t (Db.tasks st) -> Tasks.id t <> id.
Proof.
  intros Hown. split.
  - intros Hrun t Hin Heq.
    assert (Ht : In t (Db.select_task id st)).
    { apply filter_In. split; [exact Hin|]. now apply Z.eqb_eq. }
    destruct (Db.select_task id st) as [|t0 others] eqn:Hsel;
      [destruct Ht|].
    destruct (select_joined_by_id_head st id t0 others Hown Hsel)
      as [uname [rest Hjoin]].
    apply (get_one_found user id st _ rest Hjoin).
    rewrite Hrun. reflexivity.
  - intros Habs. apply select_task_absent in Habs.
    unfold TaskRoutes.get_one. run_handler.
    rewrite (select_joined_absent st id Habs). reflexivity.
Qed.

Lemma read_single_not_found_witness :
  Handler.run (TaskRoutes.get_one (Sample.claims_of Sample.root) 99)
    Sample.store
  = (Sample.store, Http.json 404 (Http.Message "Task not found")).
Proof.
  apply (read_single_not_found Sample.store (Sample.claims_of Sample.root)
           99 (Inv.owners _ sample_store_consistent)).
  intros t Ht. simpl in Ht.
  destruct Ht as [<- | [<- | [<- | []]]]; simpl; lia.
Defined.

(** X20: a task whose owner is not a stored user is hidden by the join:
    read-single answers 404 for its id and no list contains it, for any
    caller, administrators included (on a store whose task ids are
    unique). *)
Theorem orphan_task_hidden (st : Db.Store) (user : Jwt.Claims)
    (t : Tasks.row) :
  Inv.task_ids_unique st ->
  In t (Db.tasks st) ->
  (forall u, In u (Db.users st) -> Users.id u <> Tasks.user_id t) ->
  Handler.run (TaskRoutes.get_one user (Tasks.id t)) st
  = (st, Http.json 404 (Http.Message "Task not found"))
  /\ exists rows,
       Handler.run (TaskRoutes.get_all user) st
       = (st, Http.json 200 (Http.TaskList rows))
       /\ forall row, In row rows -> Tasks.task row <> t.
Proof.
  intros Hkey Hin Horphan.
  assert (Hjoin : forall row, In row (Db.tasks_join_users st) ->
                              Tasks.task row <> t).
  { intros row Hrow Heq. destruct (join_owner st row Hrow) as [u [Hu [Hid _]]].
    apply (Horphan u Hu). now rewrite Hid, Heq. }
  split.
  - unfold TaskRoutes.get_one. run_handler.
    replace (Db.select_joined_by_id (Tasks.id t) st)
      with (@nil Tasks.joined); [reflexivity|].
    symmetry. unfold Db.select_joined_by_id. apply filter_none.
    intros row Hrow. apply Z.eqb_neq. intros Hid.
    apply (Hjoin row Hrow).
    apply (key_injective Tasks.id (Db.tasks st)); try assumption.
    now apply join_task_in.
  - unfold TaskRoutes.get_all. run_handler.
    eexists. split; [reflexivity|].
    intros row Hrow. apply Hjoin.
    destruct (negb (Jwt.role user =? "admin")%string).
    + unfold Db.select_joined_by_user in Hrow.
      apply (Permutation_in _ (order_by_perm _)) in Hrow.
      apply filter_In in Hrow. tauto.
    + unfold Db.select_all_joined in Hrow.
      now apply (Permutation_in _ (order_by_perm _)) in Hrow.
Qed.

Lemma orphan_task_hidden_witness :
  let stray :=
    {| Tasks.id := 9; Tasks.title := "stray"; Tasks.description := None;
       Tasks.status := "pending"; Tasks.user_id := 42;
       Tasks.created_at := 400; Tasks.updated_at := 400 |} in
  let st :=
    {| Db.users := Db.users Sample.store;
       Db.tasks := Db.tasks Sample.store ++ [stray];
       Db.users_auto_increment := 4; Db.tasks_auto_increment := 10 |} in
  Handler.run (TaskRoutes.get_one (Sample.claims_of Sample.root) 9) st
  = (st, Http.json 404 (Http.Message "Task not found"))
  /\ exists rows,
       Handler.run (TaskRoutes.get_all (Sample.claims_of Sample.root)) st
       = (st, Http.json 200 (Http.TaskList rows))
       /\ forall row, In row rows -> Tasks.task row <> stray.
Proof.
  intros stray st.
  apply (orphan_task_hidden st (Sample.claims_of Sample.root) stray).
  - unfold Inv.task_ids_unique. simpl.
    repeat constructor; simpl; intuition discriminate.
  - simpl. auto.
  - intros u Hu. simpl in Hu.
    destruct Hu as [<- | [<- | [<- | []]]]; simpl; discriminate.
Defined.
